(** * sid-nav: the query layer of [server.js], the proxy call of
    [queryFunctions.js] and the view state of [Navigator.tsx]

    A shallow embedding of the three request handlers of the server, of
    [anyQuery], and of the event handlers of the [Navigator] component,
    followed by the properties of the specification that concern them. *)

From Stdlib Require Import ZArith List String Ascii Bool Lia DecimalString
  DecimalPos.
Import ListNotations.
Open Scope string_scope.
Open Scope Z_scope.

(** ** JavaScript values and built-ins used by the sources *)

Module Js.

(** Strings are sequences of 8-bit characters (the Latin-1 range of the
    code units of a JavaScript string). *)

Definition nl : string := String (ascii_of_nat 10) EmptyString.

(** [WhiteSpace] and [LineTerminator] code units below 256: TAB, LF, VT, FF,
    CR, SP and NBSP.  These are what [String.prototype.trim] and [parseInt]
    strip. *)
Definition isWhiteSpace (c : ascii) : bool :=
  let n := nat_of_ascii c in
  ((9 <=? n) && (n <=? 13) || (n =? 32) || (n =? 160))%nat.

Fixpoint trimStart (s : string) : string :=
  match s with
  | EmptyString => EmptyString
  | String c r => if isWhiteSpace c then trimStart r else s
  end.

Fixpoint rev_string (s acc : string) : string :=
  match s with
  | EmptyString => acc
  | String c r => rev_string r (String c acc)
  end.

Definition trimEnd (s : string) : string :=
  rev_string (trimStart (rev_string s EmptyString)) EmptyString.

(** [s.trim()] *)
Definition trim (s : string) : string := trimEnd (trimStart s).

Definition is_empty (s : string) : bool :=
  match s with EmptyString => true | _ => false end.

(** [s.includes(t)] *)
Fixpoint includes (s t : string) : bool :=
  if prefix t s then true
  else match s with
       | EmptyString => false
       | String _ r => includes r t
       end.

(** [parts.join(sep)] *)
Fixpoint join (sep : string) (parts : list string) : string :=
  match parts with
  | [] => EmptyString
  | [p] => p
  | p :: rest => p ++ sep ++ join sep rest
  end.

(** Numbers.  Every number the sources compute with is an integer, [NaN] or
    an infinity (the quotient under [Math.ceil] is never kept); integers are
    exact, as doubles are below 2^53. *)
Inductive number : Type :=
| NaN
| Infinity (negative : bool)
| Num (z : Z).

Definition num_neg (a : number) : number :=
  match a with
  | NaN => NaN
  | Infinity s => Infinity (negb s)
  | Num z => Num (- z)
  end.

(** [a + b] *)
Definition num_add (a b : number) : number :=
  match a, b with
  | NaN, _ | _, NaN => NaN
  | Infinity s, Infinity t => if Bool.eqb s t then Infinity s else NaN
  | Infinity s, Num _ | Num _, Infinity s => Infinity s
  | Num x, Num y => Num (x + y)
  end.

(** [a - b] *)
Definition num_sub (a b : number) : number := num_add a (num_neg b).

(** [a * b] *)
Definition num_mul (a b : number) : number :=
  match a, b with
  | NaN, _ | _, NaN => NaN
  | Infinity s, Infinity t => Infinity (xorb s t)
  | Infinity s, Num z | Num z, Infinity s =>
      if z =? 0 then NaN else Infinity (xorb s (z <? 0))
  | Num x, Num y => Num (x * y)
  end.

(** [Math.ceil(a / b)]: the quotient is rounded up at once, so that no
    fraction has to be represented.  This is the result on doubles for
    integers below 2^53 in absolute value. *)
Definition Math_ceil_div (a b : number) : number :=
  match a, b with
  | NaN, _ | _, NaN => NaN
  | Infinity _, Infinity _ => NaN
  | Infinity s, Num z => Infinity (xorb s (z <? 0))
  | Num _, Infinity _ => Num 0
  | Num x, Num y =>
      if y =? 0 then
        (if x =? 0 then NaN else Infinity (x <? 0))
      else Num (- ((- x) / y))
  end.

(** [String(n)] and [`${n}`] for a number: the decimal numeral of an
    integer, as it is for doubles below 10^21 in absolute value. *)
Definition string_of_Z (z : Z) : string := NilZero.string_of_int (Z.to_int z).

Definition toString (a : number) : string :=
  match a with
  | NaN => "NaN"
  | Infinity false => "Infinity"
  | Infinity true => "-Infinity"
  | Num z => string_of_Z z
  end.

(** [parseInt(s)] with no radix: leading white space is skipped, a sign is
    read, a [0x]/[0X] prefix selects radix 16, and the longest prefix of
    digits of the radix is the value; no digit gives [NaN]. *)
Definition digit_value (c : ascii) : option Z :=
  let n := Z.of_nat (nat_of_ascii c) in
  if (48 <=? n) && (n <=? 57) then Some (n - 48)
  else if (97 <=? n) && (n <=? 122) then Some (n - 87)
  else if (65 <=? n) && (n <=? 90) then Some (n - 55)
  else None.

Fixpoint parse_digits (radix : Z) (s : string) (acc : option Z) : option Z :=
  match s with
  | EmptyString => acc
  | String c r =>
      match digit_value c with
      | Some d =>
          if d <? radix
          then parse_digits radix r
                 (Some (match acc with Some a => a * radix + d | None => d end))
          else acc
      | None => acc
      end
  end.

Definition strip_hex_prefix (s : string) : option string :=
  match s with
  | String "0" (String "x" r) => Some r
  | String "0" (String "X" r) => Some r
  | _ => None
  end.

(** [parseInt(s)]: leading white space, a sign, an optional hex prefix and
    the longest run of digits; the value is exact, as the double is for a
    result below 2^53 in absolute value. *)
Definition parseInt (s : string) : number :=
  let s1 := trimStart s in
  let '(negative, s2) :=
    match s1 with
    | String "-" r => (true, r)
    | String "+" r => (false, r)
    | _ => (false, s1)
    end in
  let '(radix, s3) :=
    match strip_hex_prefix s2 with
    | Some r => (16, r)
    | None => (10, s2)
    end in
  match parse_digits radix s3 None with
  | None => NaN
  | Some v => Num (if negative then - v else v)
  end.

#[local] Set Warnings "-register-all".

(** Values produced by [JSON.parse].  A number is kept as an integer: the
    sources only test it for truthiness. *)
Inductive json : Type :=
| JNull
| JBool (b : bool)
| JNum (z : Z)
| JStr (s : string)
| JArr (items : list json)
| JObj (fields : list (string * json)).

(** An exception: an [Error] with its message. *)
Inductive exn : Type := Error (message : string).

Definition message (e : exn) : string := match e with Error m => m end.

(** A scalar of a result row, a row (column name to scalar, in column
    order), and a value bound to a statement. *)
Inductive cell : Type :=
| CNull
| CNum (z : Z)
| CStr (s : string).

Definition row : Type := list (string * cell).

Inductive param : Type :=
| PStr (s : string)
| PNum (n : number).

(** [obj[key]] on a row: the first column of that name, [None] for
    [undefined]. *)
Fixpoint get (key : string) (r : row) : option cell :=
  match r with
  | [] => None
  | (k, v) :: rest => if String.eqb k key then Some v else get key rest
  end.

(** [Object.keys(row)] *)
Definition Object_keys (r : row) : list string := map fst r.

End Js.


(** ** The world a request handler runs in *)

Module Effects.
Import Js.

(** The body [anyQuery] posts to the remote query service. *)
Record RequestBody : Type := {
  body_fun : string;
  projectId : string;
  datasetId : string;
  query : string
}.

(** What the process cannot decide: the [ENV] variable, two built-ins that
    are not unfolded ([JSON.parse], and the conversion of a string to a
    number), and the answers of the MySQL server, of the metadata server and
    of the remote query service. *)
Record Host : Type := {
  ENV_is_dev : bool;
  JSON_parse : string -> option json;
  StringToNumber : string -> number;
  connect_error : option string -> option exn;
  execute_result : option string -> string -> list param -> exn + list row;
  token_result : exn + string;
  post_result : RequestBody -> exn + list row
}.

(** A connection made by [mysql.createConnection(dbConfig)]. *)
Record Connection : Type := {
  conn_id : nat;
  conn_database : option string
}.

Inductive Event : Type :=
| Connected (c : Connection)
| ConnectFailed (database : option string)
| Executed (c : Connection) (sql : string) (params : list param)
| Ended (c : Connection)
| TokenRequested
| Posted (b : RequestBody).

(** The state of the server process: the [database] field of the module
    level [dbConfig] object, the connections that are open, and what has been
    sent to the collaborators so far (latest first). *)
Record World : Type := {
  dbConfig_database : option string;
  open_connections : list nat;
  next_conn_id : nat;
  trace : list Event
}.

Definition initial_world : World :=
  {| dbConfig_database := None; open_connections := [];
     next_conn_id := 0%nat; trace := [] |}.

Definition log (e : Event) (w : World) : World :=
  {| dbConfig_database := dbConfig_database w;
     open_connections := open_connections w;
     next_conn_id := next_conn_id w;
     trace := e :: trace w |}.

(** Computations that read and write the world and may throw. *)
Definition M (A : Type) : Type := World -> (exn + A) * World.

Definition ret {A} (a : A) : M A := fun w => (inr a, w).

Definition throw {A} (e : exn) : M A := fun w => (inl e, w).

Definition bind {A B} (m : M A) (k : A -> M B) : M B :=
  fun w =>
    match m w with
    | (inl e, w1) => (inl e, w1)
    | (inr a, w1) => k a w1
    end.

(** [try { body } catch (e) { handler(e) }] *)
Definition try_catch {A} (body : M A) (handler : exn -> M A) : M A :=
  fun w =>
    match body w with
    | (inl e, w1) => handler e w1
    | (inr a, w1) => (inr a, w1)
    end.

(** [try { body } finally { fin }] *)
Definition try_finally {A} (body : M A) (fin : M unit) : M A :=
  fun w =>
    match body w with
    | (r, w1) =>
        match fin w1 with
        | (inl e, w2) => (inl e, w2)
        | (inr _, w2) => (r, w2)
        end
    end.

Definition get_database : M (option string) :=
  fun w => (inr (dbConfig_database w), w).

(** [dbConfig.database = db] *)
Definition set_database (db : string) : M unit :=
  fun w => (inr tt,
            {| dbConfig_database := Some db;
               open_connections := open_connections w;
               next_conn_id := next_conn_id w;
               trace := trace w |}).

(** [await mysql.createConnection(dbConfig)] *)
Definition createConnection (h : Host) : M Connection :=
  fun w =>
    let db := dbConfig_database w in
    match connect_error h db with
    | Some e => (inl e, log (ConnectFailed db) w)
    | None =>
        let c := {| conn_id := next_conn_id w; conn_database := db |} in
        (inr c,
         {| dbConfig_database := db;
            open_connections := conn_id c :: open_connections w;
            next_conn_id := S (next_conn_id w);
            trace := Connected c :: trace w |})
    end.

(** [const [rows] = await connection.execute(sql, params)] *)
Definition execute (h : Host) (c : Connection) (sql : string)
    (params : list param) : M (list row) :=
  fun w => (execute_result h (conn_database c) sql params,
            log (Executed c sql params) w).

(** [await connection.end()] *)
Definition connection_end (c : Connection) : M unit :=
  fun w =>
    (inr tt,
     {| dbConfig_database := dbConfig_database w;
        open_connections :=
          filter (fun i => negb (Nat.eqb i (conn_id c))) (open_connections w);
        next_conn_id := next_conn_id w;
        trace := Ended c :: trace w |}).

(** The two [fetch] calls of [anyQuery]. *)
Definition fetch_identity_token (h : Host) : M string :=
  fun w => (token_result h, log TokenRequested w).

Definition post_query (h : Host) (b : RequestBody) : M (list row) :=
  fun w => (post_result h b, log (Posted b) w).

End Effects.

Declare Scope eff_scope.
Delimit Scope eff_scope with eff.
Notation "x <- m ;; k" := (Effects.bind m (fun x => k))
  (at level 61, m at next level, right associativity) : eff_scope.
Notation "' p <- m ;; k" := (Effects.bind m (fun x => let p := x in k))
  (at level 61, p pattern, m at next level, right associativity) : eff_scope.

Local Open Scope eff_scope.

(** ** queryFunctions.js *)

Module QueryFunctions.
Import Js Effects.

(** The object a caller passes to [anyQuery].  [params] is a property the
    callers in [server.js] set; the parameter pattern of [anyQuery] has no
    binding for it. *)
Record Options : Type := {
  prj : option string;
  ds : option string;
  tbl : option string;
  select : option string;
  conditions : option (list string);
  params : option (list param)
}.

(** A destructuring default: [name = d]. *)
Definition or_default {A} (o : option A) (d : A) : A :=
  match o with Some a => a | None => d end.

(** The statement text [anyQuery] builds from its options. *)
Definition query_text (o : Options) : string :=
  "SELECT " ++ or_default (select o) "*" ++ " FROM " ++ or_default (tbl o) EmptyString
  ++ " " ++ join " " (or_default (conditions o) []) ++ ";".

Definition request_body (o : Options) : RequestBody :=
  {| body_fun := "get";
     projectId := or_default (prj o) "magnetic-runway-428121";
     datasetId := or_default (ds o) "schools";
     query := query_text o |}.

(** [anyQuery]: the identity token is fetched, then the body is posted; a
    response that is not [ok] is an exception of the host's answer.  Both
    [catch] blocks log and rethrow.  The result is the one-element array
    [[result]]. *)
Definition anyQuery (h : Host) (o : Options) : M (list (list row)) :=
  try_catch
    (idToken <- try_catch (fetch_identity_token h) (fun error => throw error) ;;
     result <- post_query h (request_body o) ;;
     ret [result])
    (fun error => throw error).

End QueryFunctions.

(** ** server.js *)

Module Server.
Import Js Effects.

(** [req.params] and [req.query] of [GET /api/rows/:table/:page/:pageSize];
    an absent query parameter is [None].  A query parameter is a string, as
    it is when the URL gives it once and without brackets. *)
Record RowsRequest : Type := {
  table : string;
  page : string;
  pageSize : string;
  sortBy : option string;
  sortDirection : option string;
  filters : option string
}.

Inductive Request : Type :=
| GetRows (r : RowsRequest)
| GetTableNames (db : string)
| GetDatabases.

Inductive Body : Type :=
| JsonError (error : string) (details : option string)
| JsonRows (rows : list row) (totalCount : option cell)
    (currentPage : number) (totalPages : number)
| JsonList (rows : list row).

Record Response : Type := {
  status : Z;
  body : Body
}.

Definition res_status_json (code : Z) (error : string) : Response :=
  {| status := code; body := JsonError error None |}.

Definition res_failure (error : string) (e : exn) : Response :=
  {| status := 500; body := JsonError error (Some (message e)) |}.

Definition res_json (b : Body) : Response := {| status := 200; body := b |}.

(** Truthiness of an optional string: [undefined] and the empty string are
    falsy. *)
Definition truthy (o : option string) : bool :=
  match o with
  | Some s => negb (is_empty s)
  | None => false
  end.

Definition index_key (i : nat) : string := string_of_Z (Z.of_nat i).

Fixpoint indexed {A} (i : nat) (l : list A) : list (string * A) :=
  match l with
  | [] => []
  | a :: rest => (index_key i, a) :: indexed (S i) rest
  end.

Fixpoint chars (s : string) : list json :=
  match s with
  | EmptyString => []
  | String c r => JStr (String c EmptyString) :: chars r
  end.

(** [Object.entries(filterObj)] *)
Definition Object_entries (v : json) : exn + list (string * json) :=
  match v with
  | JNull => inl (Error "Cannot convert undefined or null to object")
  | JBool _ | JNum _ => inr []
  | JStr s => inr (indexed 0 (chars s))
  | JArr items => inr (indexed 0 items)
  | JObj fields => inr fields
  end.

(** The filter callback [value && value.trim() !== ''].  A truthy value that
    is not a string has no [trim] method.  The result for a kept entry
    carries the string. *)
Definition active_value (value : json) : exn + option string :=
  match value with
  | JNull => inr None
  | JBool b =>
      if b then inl (Error "value.trim is not a function") else inr None
  | JNum z =>
      if z =? 0 then inr None else inl (Error "value.trim is not a function")
  | JStr s =>
      inr (if negb (is_empty s) && negb (is_empty (trim s))
           then Some s else None)
  | JArr _ | JObj _ => inl (Error "value.trim is not a function")
  end.

(** [Object.entries(filterObj).filter(...)]: the entries that are kept, in
    order; the first exception of the callback ends the pass. *)
Fixpoint active_entries (entries : list (string * json))
    : exn + list (string * string) :=
  match entries with
  | [] => inr []
  | (key, value) :: rest =>
      match active_value value with
      | inl e => inl e
      | inr keep =>
          match active_entries rest with
          | inl e => inl e
          | inr kept =>
              inr (match keep with
                   | Some s => (key, s) :: kept
                   | None => kept
                   end)
          end
      end
  end.

(** The [map] callback: the condition pushed into the statement text, and
    the value pushed onto [filterParams]. *)
Definition condition (entry : string * string) : string :=
  fst entry ++ " LIKE '%" ++ snd entry ++ "%'".

Definition filterParam (entry : string * string) : param :=
  PStr ("%" ++ snd entry ++ "%").

Definition whereClause_of (conditions : list string) : string :=
  match conditions with
  | [] => EmptyString
  | _ => "WHERE " ++ join " AND " conditions
  end.

(** Lines 54-76: the [WHERE] clause and [filterParams]; [inl] is the
    exception caught by the [catch] that answers 400. *)
Definition build_filters (h : Host) (filters : option string)
    : exn + (string * list param) :=
  match filters with
  | Some text =>
      if is_empty text then inr (EmptyString, [])
      else
        match JSON_parse h text with
        | None => inl (Error "Unexpected token in JSON")
        | Some filterObj =>
            match Object_entries filterObj with
            | inl e => inl e
            | inr entries =>
                match active_entries entries with
                | inl e => inl e
                | inr kept =>
                    inr (whereClause_of (map condition kept),
                         map filterParam kept)
                end
            end
        end
  | None => inr (EmptyString, [])
  end.

Definition is_safe_char (c : ascii) : bool :=
  let n := nat_of_ascii c in
  ((97 <=? n) && (n <=? 122) || (65 <=? n) && (n <=? 90)
   || (48 <=? n) && (n <=? 57) || (n =? 95))%nat.

(** [sortBy.replace(/[^a-zA-Z0-9_]/g, '')] *)
Fixpoint sanitize (s : string) : string :=
  match s with
  | EmptyString => EmptyString
  | String c r => if is_safe_char c then String c (sanitize r) else sanitize r
  end.

(** Lines 78-85. *)
Definition orderByClause_of (sortBy sortDirection : option string) : string :=
  match sortBy with
  | Some s =>
      if is_empty s then EmptyString
      else
        let sanitizedSortBy := sanitize s in
        let sanitizedDirection :=
          match sortDirection with
          | Some d => if String.eqb d "desc" then "DESC" else "ASC"
          | None => "ASC"
          end in
        "ORDER BY " ++ sanitizedSortBy ++ " " ++ sanitizedDirection
  | None => EmptyString
  end.

Definition countQuery_of (table whereClause : string) : string :=
  "SELECT COUNT(*) as total FROM " ++ table ++ " " ++ whereClause.

Definition dataQuery_of (table whereClause orderByClause : string)
    (limit offset : number) : string :=
  nl ++ "      SELECT * FROM " ++ table ++ " " ++ nl
  ++ "      " ++ whereClause ++ " " ++ nl
  ++ "      " ++ orderByClause ++ nl
  ++ "      LIMIT " ++ toString limit ++ " OFFSET " ++ toString offset ++ nl
  ++ "    ".

(** The [totalCount[0].total / limit] operand: conversion of the cell to a
    number. *)
Definition ToNumber (h : Host) (v : option cell) : number :=
  match v with
  | None => NaN
  | Some CNull => Num 0
  | Some (CNum z) => Num z
  | Some (CStr s) => StringToNumber h s
  end.

(** [const [x] = array] *)
Definition first {A} (array : list A) : option A := hd_error array.

(** Lines 145-157. *)
Definition respond_rows (h : Host) (pageNum limit : number)
    (totalCount rows : option (list row)) : M Response :=
  match rows with
  | None | Some [] => ret (res_status_json 404 "No data found")
  | Some rs =>
      match totalCount with
      | None =>
          throw (Error "Cannot read properties of undefined (reading '0')")
      | Some [] =>
          throw (Error "Cannot read properties of undefined (reading 'total')")
      | Some (count_row :: _) =>
          let total := get "total" count_row in
          ret (res_json
                 (JsonRows rs total pageNum
                    (Math_ceil_div (ToNumber h total) limit)))
      end
  end.

(** A handler whose body is one [try] with a [catch] that answers. *)
Definition catching (body : M Response) (on_error : exn -> Response)
    : World -> Response * World :=
  fun w =>
    match body w with
    | (inr r, w1) => (r, w1)
    | (inl e, w1) => (on_error e, w1)
    end.

(** [app.get('/api/rows/:table/:page/:pageSize', ...)] *)
Definition rows_handler (h : Host) (req : RowsRequest)
    : World -> Response * World :=
  catching
    (if is_empty (table req) || is_empty (page req) || is_empty (pageSize req)
     then ret (res_status_json 400 "Table name, page, and page size are required")
     else
       let pageNum := parseInt (page req) in
       let limit := parseInt (pageSize req) in
       let offset := num_mul (num_sub pageNum (Num 1)) limit in
       match build_filters h (filters req) with
       | inl _ => ret (res_status_json 400 "Invalid filters format")
       | inr (whereClause, filterParams) =>
           let orderByClause :=
             orderByClause_of (sortBy req) (sortDirection req) in
           let countQuery := countQuery_of (table req) whereClause in
           let dataQuery :=
             dataQuery_of (table req) whereClause orderByClause limit offset in
           if ENV_is_dev h then
             database <- get_database ;;
             if negb (truthy database)
             then ret (res_status_json 400 "Database not selected")
             else
               connection <- createConnection h ;;
               '(totalCount, rows) <-
                 try_finally
                   (totalCount <- execute h connection countQuery filterParams ;;
                    let queryParams := (filterParams ++ [PNum limit; PNum offset])%list in
                    rows <- execute h connection dataQuery queryParams ;;
                    ret (totalCount, rows))
                   (connection_end connection) ;;
               respond_rows h pageNum limit (Some totalCount) (Some rows)
           else
             totalCount <-
               QueryFunctions.anyQuery h
                 {| QueryFunctions.prj := None; QueryFunctions.ds := None;
                    QueryFunctions.tbl := Some countQuery;
                    QueryFunctions.select := Some "*";
                    QueryFunctions.conditions := None;
                    QueryFunctions.params := Some filterParams |} ;;
             rows <-
               QueryFunctions.anyQuery h
                 {| QueryFunctions.prj := None; QueryFunctions.ds := None;
                    QueryFunctions.tbl := Some dataQuery;
                    QueryFunctions.select := Some "*";
                    QueryFunctions.conditions := None;
                    QueryFunctions.params :=
                      Some (filterParams ++ [PNum limit; PNum offset])%list |} ;;
             respond_rows h pageNum limit (first totalCount) (first rows)
       end)
    (res_failure "Failed to fetch table data").

(** The options of the two introspection calls: [{ tbl, select: '*' }]. *)
Definition introspection (statement : string) : QueryFunctions.Options :=
  {| QueryFunctions.prj := None; QueryFunctions.ds := None;
     QueryFunctions.tbl := Some statement;
     QueryFunctions.select := Some "*";
     QueryFunctions.conditions := None;
     QueryFunctions.params := None |}.

(** Lines 208-213 and 239-242. *)
Definition respond_list (not_found : string) (rows : option (list row))
    : Response :=
  match rows with
  | None | Some [] => res_status_json 404 not_found
  | Some rs => res_json (JsonList rs)
  end.

(** [app.get('/api/tableNames/:db', ...)].  The inner [try] blocks answer
    500 from their [catch]: [inl] is that early answer. *)
Definition tableNames_handler (h : Host) (db : string)
    : World -> Response * World :=
  catching
    (if is_empty db
     then ret (res_status_json 400 "Database name is required")
     else
       _ <- set_database db ;;
       outcome <-
         (if ENV_is_dev h then
            try_catch
              (connection <- createConnection h ;;
               rows <- execute h connection "SHOW TABLES" [] ;;
               _ <- connection_end connection ;;
               ret (inr (Some rows)))
              (fun dbError =>
                 ret (inl (res_failure "Failed to connect to database" dbError)))
          else
            try_catch
              (result <- QueryFunctions.anyQuery h (introspection "SHOW TABLES") ;;
               ret (inr (first result)))
              (fun queryError =>
                 ret (inl (res_failure "Failed to execute query" queryError)))) ;;
       match outcome with
       | inl answer => ret answer
       | inr rows => ret (respond_list "No tables found in database" rows)
       end)
    (res_failure "Failed to fetch table names").

(** [app.get('/api/databases', ...)] *)
Definition databases_handler (h : Host) : World -> Response * World :=
  catching
    (rows <-
       (if ENV_is_dev h then
          connection <- createConnection h ;;
          rows <- execute h connection "SHOW DATABASES" [] ;;
          _ <- connection_end connection ;;
          ret (Some rows)
        else
          result <- QueryFunctions.anyQuery h (introspection "SHOW DATABASES") ;;
          ret (first result)) ;;
     ret (respond_list "No databases found" rows))
    (res_failure "Failed to fetch databases").

(** The process handling requests one after the other. *)
Definition handle (h : Host) (r : Request) : World -> Response * World :=
  match r with
  | GetRows req => rows_handler h req
  | GetTableNames db => tableNames_handler h db
  | GetDatabases => databases_handler h
  end.

Fixpoint serve (h : Host) (requests : list Request) (w : World)
    : list Response * World :=
  match requests with
  | [] => ([], w)
  | r :: rest =>
      let '(answer, w1) := handle h r w in
      let '(answers, w2) := serve h rest w1 in
      (answer :: answers, w2)
  end.

End Server.

(** ** src/components/Navigator.tsx *)

Module Navigator.
Import Js.

Inductive Direction : Type := asc | desc.

Record SortConfig : Type := {
  key : string;
  direction : Direction
}.

(** The [useState] cells of the component that the table view uses.  (The
    database and table lists, and their loaders, are left out.)  [filters]
    keeps the insertion order of its keys. *)
Record ViewState : Type := {
  debounceTimeout : option nat;
  openTable : option string;
  tableRows : list row;
  tableColumns : list string;
  rowsLoading : bool;
  currentPage : Z;
  sortConfig : option SortConfig;
  filters : list (string * string);
  totalRows : Z;
  totalPages : Z
}.

Definition rowsPerPage : Z := 20.

(** The state of the first render. *)
Definition initial_view : ViewState :=
  {| debounceTimeout := None; openTable := None; tableRows := [];
     tableColumns := []; rowsLoading := false; currentPage := 1;
     sortConfig := None; filters := []; totalRows := 0; totalPages := 0 |}.

Definition setDebounceTimeout (x : option nat) (v : ViewState) : ViewState :=
  {| debounceTimeout := x; openTable := openTable v; tableRows := tableRows v;
     tableColumns := tableColumns v; rowsLoading := rowsLoading v;
     currentPage := currentPage v; sortConfig := sortConfig v;
     filters := filters v; totalRows := totalRows v;
     totalPages := totalPages v |}.

Definition setOpenTable (x : option string) (v : ViewState) : ViewState :=
  {| debounceTimeout := debounceTimeout v; openTable := x;
     tableRows := tableRows v; tableColumns := tableColumns v;
     rowsLoading := rowsLoading v; currentPage := currentPage v;
     sortConfig := sortConfig v; filters := filters v;
     totalRows := totalRows v; totalPages := totalPages v |}.

Definition setTableRows (x : list row) (v : ViewState) : ViewState :=
  {| debounceTimeout := debounceTimeout v; openTable := openTable v;
     tableRows := x; tableColumns := tableColumns v;
     rowsLoading := rowsLoading v; currentPage := currentPage v;
     sortConfig := sortConfig v; filters := filters v;
     totalRows := totalRows v; totalPages := totalPages v |}.

Definition setTableColumns (x : list string) (v : ViewState) : ViewState :=
  {| debounceTimeout := debounceTimeout v; openTable := openTable v;
     tableRows := tableRows v; tableColumns := x;
     rowsLoading := rowsLoading v; currentPage := currentPage v;
     sortConfig := sortConfig v; filters := filters v;
     totalRows := totalRows v; totalPages := totalPages v |}.

Definition setRowsLoading (x : bool) (v : ViewState) : ViewState :=
  {| debounceTimeout := debounceTimeout v; openTable := openTable v;
     tableRows := tableRows v; tableColumns := tableColumns v;
     rowsLoading := x; currentPage := currentPage v;
     sortConfig := sortConfig v; filters := filters v;
     totalRows := totalRows v; totalPages := totalPages v |}.

Definition setCurrentPage (x : Z) (v : ViewState) : ViewState :=
  {| debounceTimeout := debounceTimeout v; openTable := openTable v;
     tableRows := tableRows v; tableColumns := tableColumns v;
     rowsLoading := rowsLoading v; currentPage := x;
     sortConfig := sortConfig v; filters := filters v;
     totalRows := totalRows v; totalPages := totalPages v |}.

Definition setSortConfig (x : option SortConfig) (v : ViewState) : ViewState :=
  {| debounceTimeout := debounceTimeout v; openTable := openTable v;
     tableRows := tableRows v; tableColumns := tableColumns v;
     rowsLoading := rowsLoading v; currentPage := currentPage v;
     sortConfig := x; filters := filters v;
     totalRows := totalRows v; totalPages := totalPages v |}.

(** [setFilters(f)] with an updater function: [f] is applied to the latest
    state. *)
Definition setFilters (f : list (string * string) -> list (string * string))
    (v : ViewState) : ViewState :=
  {| debounceTimeout := debounceTimeout v; openTable := openTable v;
     tableRows := tableRows v; tableColumns := tableColumns v;
     rowsLoading := rowsLoading v; currentPage := currentPage v;
     sortConfig := sortConfig v; filters := f (filters v);
     totalRows := totalRows v; totalPages := totalPages v |}.

Definition setTotalRows (x : Z) (v : ViewState) : ViewState :=
  {| debounceTimeout := debounceTimeout v; openTable := openTable v;
     tableRows := tableRows v; tableColumns := tableColumns v;
     rowsLoading := rowsLoading v; currentPage := currentPage v;
     sortConfig := sortConfig v; filters := filters v;
     totalRows := x; totalPages := totalPages v |}.

Definition setTotalPages (x : Z) (v : ViewState) : ViewState :=
  {| debounceTimeout := debounceTimeout v; openTable := openTable v;
     tableRows := tableRows v; tableColumns := tableColumns v;
     rowsLoading := rowsLoading v; currentPage := currentPage v;
     sortConfig := sortConfig v; filters := filters v;
     totalRows := totalRows v; totalPages := x |}.

(** [{ ...prev, [key]: value }]: an existing key keeps its place.  The keys
    are column names; a key that is an array index, which an object lists
    before its other keys, has its place of insertion here. *)
Fixpoint assign (k value : string) (prev : list (string * string))
    : list (string * string) :=
  match prev with
  | [] => [(k, value)]
  | (k', v') :: rest =>
      if String.eqb k' k then (k, value) :: rest
      else (k', v') :: assign k value rest
  end.

(** What a call of [fetchTableData] puts into its URL: the three path
    segments, [sortBy] and [sortDirection] when a sort column is given, and
    [filters] when an active filter exists. *)
Record FetchRequest : Type := {
  url_table : string;
  url_page : Z;
  url_pageSize : Z;
  url_sort : option (string * Direction);
  url_filters : option (list (string * string))
}.

(** How a [fetch] settles: the body of an [ok] response, with [rows],
    [totalCount] and [totalPages] where present; or a rejection, a response
    that is not [ok], or a body that is not JSON. *)
Inductive FetchOutcome : Type :=
| Data (rows : option (list row)) (totalCount totalPages : option Z)
| Failed.

(** A pending [setTimeout]: its callback closes over the render in which
    [handleFilterChange] ran. *)
Record Timer : Type := {
  timer_id : nat;
  due : Z;
  render : ViewState
}.

(** The component with its surroundings: the committed state, the clock,
    the pending timers, every fetch issued so far (latest first) and the ones
    not yet settled. *)
Record Client : Type := {
  view : ViewState;
  clock : Z;
  timers : list Timer;
  next_timer_id : nat;
  issued : list (nat * FetchRequest);
  in_flight : list nat;
  next_fetch_id : nat
}.

Definition initial_client : Client :=
  {| view := initial_view; clock := 0; timers := []; next_timer_id := 1%nat;
     issued := []; in_flight := []; next_fetch_id := 0%nat |}.

Definition update (f : ViewState -> ViewState) (c : Client) : Client :=
  {| view := f (view c); clock := clock c; timers := timers c;
     next_timer_id := next_timer_id c; issued := issued c;
     in_flight := in_flight c; next_fetch_id := next_fetch_id c |}.

Definition send (r : FetchRequest) (c : Client) : Client :=
  {| view := view c; clock := clock c; timers := timers c;
     next_timer_id := next_timer_id c;
     issued := (next_fetch_id c, r) :: issued c;
     in_flight := next_fetch_id c :: in_flight c;
     next_fetch_id := S (next_fetch_id c) |}.

Definition truthy (o : option string) : bool :=
  match o with
  | Some s => negb (is_empty s)
  | None => false
  end.

(** Lines 68-70. *)
Definition activeFilters (fs : list (string * string))
    : list (string * string) :=
  filter (fun entry => negb (is_empty (trim (snd entry)))) fs.

(** [fetchTableData] up to its [await fetch(url)]; [render] is the render
    whose closure is called, and its [filters] are the ones read. *)
Definition fetchTableData (render : ViewState) (table : string) (page : Z)
    (sortBy : option string) (sortDirection : option Direction)
    (c : Client) : Client :=
  let c1 := update (setRowsLoading true) c in
  let active := activeFilters (filters render) in
  send {| url_table := table;
          url_page := page;
          url_pageSize := rowsPerPage;
          url_sort :=
            match sortBy with
            | Some s =>
                if is_empty s then None
                else Some (s, match sortDirection with
                              | Some d => d
                              | None => asc
                              end)
            | None => None
            end;
          url_filters :=
            match active with
            | [] => None
            | _ => Some active
            end |} c1.

Definition or_zero (o : option Z) : Z :=
  match o with Some z => z | None => 0 end.

(** [fetchTableData] after its [await]: lines 96-122. *)
Definition fetch_settled (r : FetchOutcome) (v : ViewState) : ViewState :=
  match r with
  | Data rows totalCount pages =>
      let v1 := setTableRows (match rows with Some rs => rs | None => [] end) v in
      let v2 :=
        match rows with
        | Some (first_row :: _) =>
            setTotalPages (or_zero pages)
              (setTotalRows (or_zero totalCount)
                 (setTableColumns (Object_keys first_row) v1))
        | _ => setTotalPages 0 (setTotalRows 0 v1)
        end in
      setRowsLoading false v2
  | Failed =>
      setRowsLoading false
        (setTotalPages 0 (setTotalRows 0 (setTableRows [] v)))
  end.

(** [handleTableClick] *)
Definition handleTableClick (render : ViewState) (table : string)
    (c : Client) : Client :=
  if match openTable render with
     | Some t => String.eqb t table
     | None => false
     end
  then
    update (fun v =>
              setFilters (fun _ => [])
                (setSortConfig None
                   (setCurrentPage 1
                      (setTableColumns []
                         (setTableRows [] (setOpenTable None v)))))) c
  else
    fetchTableData render table 1 None None
      (update (fun v =>
                 setFilters (fun _ => [])
                   (setSortConfig None
                      (setCurrentPage 1 (setOpenTable (Some table) v)))) c).

(** [handleSort] *)
Definition sort_direction (render : ViewState) (k : string) : Direction :=
  match sortConfig render with
  | Some sc =>
      if String.eqb (key sc) k
      then match direction sc with asc => desc | desc => asc end
      else asc
  | None => asc
  end.

Definition handleSort (render : ViewState) (k : string) (c : Client)
    : Client :=
  let d := sort_direction render k in
  let c1 := update (setSortConfig (Some {| key := k; direction := d |})) c in
  match openTable render with
  | Some t =>
      if is_empty t then c1
      else fetchTableData render t (currentPage render) (Some k) (Some d) c1
  | None => c1
  end.

Definition sort_key (render : ViewState) : option string :=
  option_map key (sortConfig render).

Definition sort_dir (render : ViewState) : option Direction :=
  option_map direction (sortConfig render).

(** The callback given to [setTimeout] by [handleFilterChange]. *)
Definition debounced (render : ViewState) (c : Client) : Client :=
  let c1 := update (setCurrentPage 1) c in
  match openTable render with
  | Some t =>
      if is_empty t then c1
      else fetchTableData render t 1 (sort_key render) (sort_dir render) c1
  | None => c1
  end.

(** [clearTimeout(id)] *)
Definition clearTimeout (id : nat) (c : Client) : Client :=
  {| view := view c; clock := clock c;
     timers := filter (fun t => negb (Nat.eqb (timer_id t) id)) (timers c);
     next_timer_id := next_timer_id c; issued := issued c;
     in_flight := in_flight c; next_fetch_id := next_fetch_id c |}.

(** [setTimeout(callback, delay)]: the new timer and its id. *)
Definition setTimeout (render : ViewState) (delay : Z) (c : Client)
    : nat * Client :=
  (next_timer_id c,
   {| view := view c; clock := clock c;
      timers := {| timer_id := next_timer_id c; due := clock c + delay;
                   render := render |} :: timers c;
      next_timer_id := S (next_timer_id c); issued := issued c;
      in_flight := in_flight c; next_fetch_id := next_fetch_id c |}).

(** [handleFilterChange] *)
Definition handleFilterChange (render : ViewState) (k value : string)
    (c : Client) : Client :=
  let c1 := update (setFilters (assign k value)) c in
  let c2 :=
    match debounceTimeout render with
    | Some id => if Nat.eqb id 0 then c1 else clearTimeout id c1
    | None => c1
    end in
  let '(timeout, c3) := setTimeout render 300 c2 in
  update (setDebounceTimeout (Some timeout)) c3.

(** [handlePageChange] *)
Definition handlePageChange (render : ViewState) (newPage : Z) (c : Client)
    : Client :=
  let c1 := update (setCurrentPage newPage) c in
  match openTable render with
  | Some t =>
      if is_empty t then c1
      else fetchTableData render t newPage (sort_key render) (sort_dir render) c1
  | None => c1
  end.

(** What happens to the component.  The handlers called are those of the
    latest render, so their closure is the committed state. *)
Inductive Event : Type :=
| ClickTable (table : string)
| ClickSort (column : string)
| TypeFilter (column value : string)
| ClickPrevious
| ClickNext
| Elapse (dt : Z)
| Settle (id : nat) (r : FetchOutcome).

Definition mem (s : string) (l : list string) : bool :=
  existsb (String.eqb s) l.

(** The header cell of a column exists when a table is open and the column
    is among [tableColumns]. *)
Definition header_shown (v : ViewState) (column : string) : bool :=
  match openTable v with
  | Some _ => mem column (tableColumns v)
  | None => false
  end.

Definition pager_shown (v : ViewState) : bool :=
  match openTable v with Some _ => true | None => false end.

(** Timers that are due, earliest first. *)
Fixpoint insert_timer (t : Timer) (l : list Timer) : list Timer :=
  match l with
  | [] => [t]
  | u :: rest =>
      if (due t <? due u) || ((due t =? due u) && (timer_id t <? timer_id u)%nat)
      then t :: l
      else u :: insert_timer t rest
  end.

Definition due_timers (now : Z) (l : list Timer) : list Timer :=
  fold_right insert_timer [] (filter (fun t => due t <=? now) l).

Definition fire (c : Client) (t : Timer) : Client :=
  debounced (render t) (clearTimeout (timer_id t) c).

Definition elapse (dt : Z) (c : Client) : Client :=
  let now := clock c + dt in
  let c1 :=
    {| view := view c; clock := now; timers := timers c;
       next_timer_id := next_timer_id c; issued := issued c;
       in_flight := in_flight c; next_fetch_id := next_fetch_id c |} in
  fold_left fire (due_timers now (timers c)) c1.

Definition settle (id : nat) (r : FetchOutcome) (c : Client) : Client :=
  if existsb (Nat.eqb id) (in_flight c) then
    {| view := fetch_settled r (view c); clock := clock c; timers := timers c;
       next_timer_id := next_timer_id c; issued := issued c;
       in_flight := filter (fun i => negb (Nat.eqb i id)) (in_flight c);
       next_fetch_id := next_fetch_id c |}
  else c.

Definition step (c : Client) (e : Event) : Client :=
  let v := view c in
  match e with
  | ClickTable table => handleTableClick v table c
  | ClickSort column =>
      if header_shown v column then handleSort v column c else c
  | TypeFilter column value =>
      if header_shown v column then handleFilterChange v column value c else c
  | ClickPrevious =>
      if pager_shown v && negb ((currentPage v =? 1) || rowsLoading v)
      then handlePageChange v (currentPage v - 1) c else c
  | ClickNext =>
      if pager_shown v && negb ((currentPage v =? totalPages v) || rowsLoading v)
      then handlePageChange v (currentPage v + 1) c else c
  | Elapse dt => if 0 <=? dt then elapse dt c else c
  | Settle id r => settle id r c
  end.

Definition run (c : Client) (events : list Event) : Client :=
  fold_left step events c.

End Navigator.

(** ** Notions of the specification, and the inputs used below *)

Module Spec.
Import Js Effects Server.

(** [p] is the ceiling of [t / l] for a positive [l]: the least integer with
    [t <= p * l]. *)
Definition is_ceiling (t l p : Z) : Prop :=
  (p - 1) * l < t <= p * l.

(** The safe-identifier pattern. *)
Definition safe_identifier (s : string) : bool :=
  forallb is_safe_char (list_ascii_of_string s).

(** A request names an identifier outside the safe pattern: its table, its
    sort column, or a column of its filter object. *)
Definition names_unsafe_identifier (h : Host) (req : RowsRequest) : Prop :=
  safe_identifier (table req) = false
  \/ (exists s, sortBy req = Some s /\ safe_identifier s = false)
  \/ (exists text fields column value,
        filters req = Some text
        /\ JSON_parse h text = Some (JObj fields)
        /\ In (column, value) fields
        /\ safe_identifier column = false).

(** The events a handler adds to the trace. *)
Definition added (before after : World) : list Event :=
  firstn (List.length (trace after) - List.length (trace before)) (trace after).

Definition is_statement (e : Event) : bool :=
  match e with
  | Executed _ _ _ | Posted _ => true
  | _ => false
  end.

(** The database a statement on a connection is run against. *)
Definition targets (e : Event) : list (option string) :=
  match e with
  | Executed c _ _ => [conn_database c]
  | _ => []
  end.

(** The database the next request finds in [dbConfig] after [requests]. *)
Fixpoint selected (requests : list Request) (current : option string)
    : option string :=
  match requests with
  | [] => current
  | GetTableNames db :: rest =>
      selected rest (if is_empty db then current else Some db)
  | _ :: rest => selected rest current
  end.











(** The options with another [params] property. *)
Definition with_params (ps : option (list param)) (o : QueryFunctions.Options)
    : QueryFunctions.Options :=
  {| QueryFunctions.prj := QueryFunctions.prj o;
     QueryFunctions.ds := QueryFunctions.ds o;
     QueryFunctions.tbl := QueryFunctions.tbl o;
     QueryFunctions.select := QueryFunctions.select o;
     QueryFunctions.conditions := QueryFunctions.conditions o;
     QueryFunctions.params := ps |}.

(** The body posted for a statement passed as [tbl] with [select: '*']. *)
Definition proxied (statement : string) : RequestBody :=
  {| body_fun := "get";
     projectId := "magnetic-runway-428121";
     datasetId := "schools";
     query := "SELECT * FROM " ++ statement ++ " ;" |}.

(** The request with another [sortBy] parameter. *)
Definition with_sortBy (s : option string) (req : RowsRequest) : RowsRequest :=
  {| table := table req; page := page req; pageSize := pageSize req;
     sortBy := s; sortDirection := sortDirection req;
     filters := filters req |}.

(** Both statements of a rows request reach the backend and succeed, the
    count statement with [totalCount] and the data statement with [rows]. *)
Definition queries_return (h : Host) (req : RowsRequest) (w : World)
    (whereClause : string) (filterParams : list param)
    (totalCount rows : list row) : Prop :=
  let limit := parseInt (pageSize req) in
  let offset := num_mul (num_sub (parseInt (page req)) (Num 1)) limit in
  let countQuery := countQuery_of (table req) whereClause in
  let dataQuery :=
    dataQuery_of (table req) whereClause
      (orderByClause_of (sortBy req) (sortDirection req)) limit offset in
  let queryParams := (filterParams ++ [PNum limit; PNum offset])%list in
  if ENV_is_dev h then
    truthy (dbConfig_database w) = true
    /\ connect_error h (dbConfig_database w) = None
    /\ execute_result h (dbConfig_database w) countQuery filterParams
       = inr totalCount
    /\ execute_result h (dbConfig_database w) dataQuery queryParams = inr rows
  else
    (exists token, token_result h = inr token)
    /\ post_result h
         (QueryFunctions.request_body
            {| QueryFunctions.prj := None; QueryFunctions.ds := None;
               QueryFunctions.tbl := Some countQuery;
               QueryFunctions.select := Some "*";
               QueryFunctions.conditions := None;
               QueryFunctions.params := Some filterParams |}) = inr totalCount
    /\ post_result h
         (QueryFunctions.request_body
            {| QueryFunctions.prj := None; QueryFunctions.ds := None;
               QueryFunctions.tbl := Some dataQuery;
               QueryFunctions.select := Some "*";
               QueryFunctions.conditions := None;
               QueryFunctions.params := Some queryParams |}) = inr rows.

End Spec.

Module Scenarios.
Import Js Effects Server.

Definition one_row : row := [("id", CNum 1); ("name", CStr "alice")].

Definition count_41 : list row := [[("total", CNum 41)]].

Definition quote : string := String (ascii_of_nat 34) EmptyString.

(** The text of the filter object with the one entry [name: al], and a
    [JSON.parse] that knows this text only. *)
Definition name_al_text : string :=
  "{" ++ quote ++ "name" ++ quote ++ ":" ++ quote ++ "al" ++ quote ++ "}".

Definition parse_name_al (text : string) : option json :=
  if String.eqb text name_al_text then Some (JObj [("name", JStr "al")])
  else None.

(** A MySQL server that answers every count with 41 and every other
    statement with one row. *)
Definition direct_host : Host :=
  {| ENV_is_dev := true;
     JSON_parse := parse_name_al;
     StringToNumber := fun _ => NaN;
     connect_error := fun _ => None;
     execute_result := fun _ sql _ =>
       if prefix "SELECT COUNT" sql then inr count_41 else inr [one_row];
     token_result := inl (Error "metadata server not reachable");
     post_result := fun _ => inl (Error "remote service not reachable") |}.

(** The same server with a table that has no rows. *)
Definition empty_table_host : Host :=
  {| ENV_is_dev := true;
     JSON_parse := fun _ => None;
     StringToNumber := fun _ => NaN;
     connect_error := fun _ => None;
     execute_result := fun _ sql _ =>
       if prefix "SELECT COUNT" sql then inr [[("total", CNum 0)]] else inr [];
     token_result := inl (Error "metadata server not reachable");
     post_result := fun _ => inl (Error "remote service not reachable") |}.

(** A MySQL server that accepts connections and fails every statement. *)
Definition failing_host : Host :=
  {| ENV_is_dev := true;
     JSON_parse := fun _ => None;
     StringToNumber := fun _ => NaN;
     connect_error := fun _ => None;
     execute_result := fun _ _ _ => inl (Error "Connection lost");
     token_result := inl (Error "metadata server not reachable");
     post_result := fun _ => inl (Error "remote service not reachable") |}.

(** The process behind the remote query service. *)
Definition proxy_host : Host :=
  {| ENV_is_dev := false;
     JSON_parse := parse_name_al;
     StringToNumber := fun _ => NaN;
     connect_error := fun _ => Some (Error "no MySQL server");
     execute_result := fun _ _ _ => inl (Error "no MySQL server");
     token_result := inr "token";
     post_result := fun _ => inr [one_row] |}.

Definition users_page_1 : RowsRequest :=
  {| table := "users"; page := "1"; pageSize := "20";
     sortBy := None; sortDirection := None; filters := None |}.

(** The request with [filters={"name":"al"}]. *)
Definition users_named_al : RowsRequest :=
  {| table := "users"; page := "1"; pageSize := "20";
     sortBy := None; sortDirection := None; filters := Some name_al_text |}.

Definition users_sorted_unsafe : RowsRequest :=
  {| table := "users"; page := "1"; pageSize := "20";
     sortBy := Some "age;--"; sortDirection := Some "desc"; filters := None |}.

(** The process after [GET /api/tableNames/shop]. *)
Definition shop_selected : World :=
  {| dbConfig_database := Some "shop"; open_connections := [];
     next_conn_id := 1%nat; trace := [] |}.

Definition shop_connection : Connection :=
  {| conn_id := 1; conn_database := Some "shop" |}.

End Scenarios.

Module ViewScenarios.
Import Js Navigator.

Definition page_1_rows : list row := [[("name", CStr "alice")]].

Definition page_2_rows : list row := [[("name", CStr "bob")]].

(** An [ok] response of the server with 41 rows in 3 pages. *)
Definition answer (rows : list row) : FetchOutcome :=
  Data (Some rows) (Some 41) (Some 3).

(** The rows a settled fetch puts on display. *)
Definition shown_rows (r : FetchOutcome) : list row :=
  match r with
  | Data (Some rows) _ _ => rows
  | _ => []
  end.

(** The table [users] is opened and its first page arrives (fetch 0).  Two
    clicks on the header of [name] issue fetches 1 and 2, both for page 1;
    fetch 2 is answered and [Next] issues fetch 3 for page 2, which is
    answered.  Then the answer to fetch 1 arrives. *)
Definition overlapping_fetches : list Event :=
  [ ClickTable "users"; Settle 0 (answer page_1_rows);
    ClickSort "name"; ClickSort "name"; Settle 2 (answer page_1_rows);
    ClickNext; Settle 3 (answer page_2_rows);
    Settle 1 (answer page_1_rows) ].

(** The table [users] is opened and the second page is shown. *)
Definition on_page_2 : list Event :=
  [ ClickTable "users"; Settle 0 (answer page_1_rows);
    ClickNext; Settle 1 (answer page_2_rows) ].

(** [a], [al], [ali] are typed into the filter of [name], 100 time units
    apart, and 300 time units pass. *)
Definition typing_ali : list Event :=
  [ TypeFilter "name" "a"; Elapse 100;
    TypeFilter "name" "al"; Elapse 100;
    TypeFilter "name" "ali"; Elapse 300 ].

(** Keystrokes in filter inputs, each followed by a pause. *)
Fixpoint typing (keys : list (string * string * Z)) : list Event :=
  match keys with
  | [] => []
  | (column, value, pause) :: rest =>
      TypeFilter column value :: Elapse pause :: typing rest
  end.

(** Each keystroke is in the input of a column on display and is followed,
    within the debounce delay, by the next one. *)
Definition quick (columns : list string) (keys : list (string * string * Z))
    : Prop :=
  Forall (fun k => mem (fst (fst k)) columns = true /\ 0 <= snd k < 300) keys.

(** The timers of a component in which only [handleFilterChange] sets
    timers: none is pending, or the one whose id is in [debounceTimeout].
    Timer ids are positive. *)
Definition debounce_ready (c : Client) : Prop :=
  next_timer_id c <> 0%nat
  /\ match timers c with
     | [] => True
     | [tm] =>
         debounceTimeout (view c) = Some (timer_id tm)
         /\ timer_id tm <> 0%nat
         /\ clock c < due tm
     | _ => False
     end.

(** What [fetchTableData] sends for a sort configuration. *)
Definition sort_parameter (sc : option SortConfig) : option (string * Direction) :=
  match sc with
  | Some s => if is_empty (key s) then None else Some (key s, direction s)
  | None => None
  end.

(** What [fetchTableData] sends for a filter map. *)
Definition filters_parameter (fs : list (string * string))
    : option (list (string * string)) :=
  match activeFilters fs with
  | [] => None
  | _ => Some (activeFilters fs)
  end.

(** The fetch of a click on the header of column [k] of the open table [t],
    in the state [v]. *)
Definition sort_fetch (v : ViewState) (k t : string) : FetchRequest :=
  {| url_table := t;
     url_page := currentPage v;
     url_pageSize := rowsPerPage;
     url_sort :=
       if is_empty k then None else Some (k, sort_direction v k);
     url_filters := filters_parameter (filters v) |}.

End ViewScenarios.

(** ** What the component renders (Navigator.tsx, lines 190-308) *)

Module Render.
Import Js Navigator.

(** [filters[col]] *)
Fixpoint lookup (column : string) (fs : list (string * string))
    : option string :=
  match fs with
  | [] => None
  | (k, v) :: rest => if String.eqb k column then Some v else lookup column rest
  end.

(** Line 235, the text in the filter input of a column:
    [filters[col] || '']. *)
Definition input_value (v : ViewState) (column : string) : string :=
  match lookup column (filters v) with
  | Some s => s
  | None => EmptyString
  end.

(** Line 230, the arrow beside a column name: none unless the column is the
    sort key. *)
Definition sort_arrow (v : ViewState) (column : string) : option Direction :=
  match sortConfig v with
  | Some sc => if String.eqb (key sc) column then Some (direction sc) else None
  | None => None
  end.

(** Line 278, the three numbers of [Showing a to b of n rows]. *)
Definition showing (v : ViewState) : Z * Z * Z :=
  ((currentPage v - 1) * rowsPerPage + 1,
   Z.min (currentPage v * rowsPerPage) (totalRows v),
   totalRows v).

(** Lines 284 and 294, the [disabled] attributes of the two buttons. *)
Definition previous_disabled (v : ViewState) : bool :=
  (currentPage v =? 1) || rowsLoading v.

Definition next_disabled (v : ViewState) : bool :=
  (currentPage v =? totalPages v) || rowsLoading v.

(** Line 261: [String(row[col] ?? '')]. *)
Definition cell_text (c : option cell) : string :=
  match c with
  | None | Some CNull => EmptyString
  | Some (CNum z) => string_of_Z z
  | Some (CStr s) => s
  end.

(** Lines 245-270, the body of the grid: while rows load, [rowsPerPage] rows
    of empty cells; otherwise one row per table row, with one cell per
    column, or the single cell [No data available] when no column is
    known. *)
Inductive GridRow : Type :=
| Cells (texts : list string)
| NoDataAvailable.

Definition grid (v : ViewState) : list GridRow :=
  if rowsLoading v then
    repeat (Cells (map (fun _ => EmptyString) (tableColumns v)))
      (Z.to_nat rowsPerPage)
  else
    map (fun r =>
           match tableColumns v with
           | [] => NoDataAvailable
           | columns => Cells (map (fun column => cell_text (get column r)) columns)
           end)
      (tableRows v).

End Render.

(** ** The database and table lists (Navigator.tsx, lines 4-8 and 20-56) *)

Module Picker.
Import Js.

(** A name taken from a row: [Object.values(row)[0]], which is [undefined]
    ([None]) for a row without columns. *)
Definition name : Type := option cell.

Definition first_value (r : row) : name :=
  match r with
  | [] => None
  | (_, v) :: _ => Some v
  end.

(** [data.map((row: any) => Object.values(row)[0])] *)
Definition names_of (data : list row) : list name := map first_value data.

Definition truthy (n : name) : bool :=
  match n with
  | Some (CStr s) => negb (is_empty s)
  | Some (CNum z) => negb (z =? 0)
  | Some CNull | None => false
  end.

Definition cell_eqb (a b : cell) : bool :=
  match a, b with
  | CNull, CNull => true
  | CNum x, CNum y => x =? y
  | CStr s, CStr t => String.eqb s t
  | _, _ => false
  end.

(** [Object.is] on names, by which React decides whether a state cell has
    changed. *)
Definition same_name (a b : name) : bool :=
  match a, b with
  | None, None => true
  | Some x, Some y => cell_eqb x y
  | _, _ => false
  end.

(** The [useState] cells of the two lists. *)
Record State : Type := {
  databases : list name;
  selectedDb : name;
  tables : list name;
  loading : bool
}.

(** [selectedDb] starts as [null]. *)
Definition initial_state : State :=
  {| databases := []; selectedDb := Some CNull; tables := [];
     loading := false |}.

(** What [await res.json()] gives: a rejection (of [fetch] or of the
    parsing), a value without a [map] method (the [{ error }] objects of the
    server), or an array of rows. *)
Inductive Payload : Type :=
| Rejected
| NotAnArray
| Rows (data : list row).

(** The component with its two kinds of fetch: whether the fetch of the
    databases is pending, and the fetches of table names issued so far
    (latest first) with the ones not yet settled. *)
Record Client : Type := {
  state : State;
  databases_pending : bool;
  issued : list (nat * name);
  in_flight : list nat;
  next_fetch_id : nat
}.

(** After the first render: the effect of lines 23-36 has called
    [fetchDatabases]; the effect of lines 41-56 has returned at once. *)
Definition mounted : Client :=
  {| state := initial_state; databases_pending := true; issued := [];
     in_flight := []; next_fetch_id := 0%nat |}.

(** Lines 41-56, the effect that runs when [selectedDb] has changed. *)
Definition tables_effect (c : Client) : Client :=
  if truthy (selectedDb (state c)) then
    {| state := {| databases := databases (state c);
                   selectedDb := selectedDb (state c);
                   tables := tables (state c);
                   loading := true |};
       databases_pending := databases_pending c;
       issued := (next_fetch_id c, selectedDb (state c)) :: issued c;
       in_flight := next_fetch_id c :: in_flight c;
       next_fetch_id := S (next_fetch_id c) |}
  else c.

(** [setSelectedDb(n)], with the effect that follows the render when the
    value has changed. *)
Definition setSelectedDb (n : name) (c : Client) : Client :=
  if same_name (selectedDb (state c)) n then c
  else
    tables_effect
      {| state := {| databases := databases (state c);
                     selectedDb := n;
                     tables := tables (state c);
                     loading := loading (state c) |};
         databases_pending := databases_pending c;
         issued := issued c;
         in_flight := in_flight c;
         next_fetch_id := next_fetch_id c |}.

(** Lines 24-34, [fetchDatabases] after its [await]s: an exception is
    caught and logged. *)
Definition databases_settled (p : Payload) (c : Client) : Client :=
  if databases_pending c then
    let c1 :=
      {| state := state c; databases_pending := false; issued := issued c;
         in_flight := in_flight c; next_fetch_id := next_fetch_id c |} in
    match p with
    | Rows data =>
        let dbNames := names_of data in
        let c2 :=
          {| state := {| databases := dbNames;
                         selectedDb := selectedDb (state c1);
                         tables := tables (state c1);
                         loading := loading (state c1) |};
             databases_pending := false; issued := issued c1;
             in_flight := in_flight c1; next_fetch_id := next_fetch_id c1 |} in
        match dbNames with
        | [] => c2
        | n :: _ => setSelectedDb n c2
        end
    | Rejected | NotAnArray => c1
    end
  else c.

(** Lines 46-51, the two [then] callbacks of a fetch of table names: a
    rejection, or an exception of [data.map], is handled nowhere. *)
Definition tables_settled (id : nat) (p : Payload) (c : Client) : Client :=
  if existsb (Nat.eqb id) (in_flight c) then
    let rest := filter (fun i => negb (Nat.eqb i id)) (in_flight c) in
    match p with
    | Rows data =>
        {| state := {| databases := databases (state c);
                       selectedDb := selectedDb (state c);
                       tables := names_of data;
                       loading := false |};
           databases_pending := databases_pending c; issued := issued c;
           in_flight := rest; next_fetch_id := next_fetch_id c |}
    | Rejected | NotAnArray =>
        {| state := state c;
           databases_pending := databases_pending c; issued := issued c;
           in_flight := rest; next_fetch_id := next_fetch_id c |}
    end
  else c.

(** The value of the [option] element of a database (line 202). *)
Definition name_text (n : name) : string :=
  match n with
  | None | Some CNull => EmptyString
  | Some (CNum z) => string_of_Z z
  | Some (CStr s) => s
  end.

Inductive Event : Type :=
| DatabasesSettled (p : Payload)
| Select (value : string)
| TablesSettled (id : nat) (p : Payload).

(** Line 198: [onChange={e => setSelectedDb(e.target.value)}]; the element
    is disabled while there is no database, and its values are those of its
    options. *)
Definition step (c : Client) (e : Event) : Client :=
  match e with
  | DatabasesSettled p => databases_settled p c
  | Select value =>
      if existsb (fun n => String.eqb (name_text n) value) (databases (state c))
      then setSelectedDb (Some (CStr value)) c
      else c
  | TablesSettled id p => tables_settled id p c
  end.

Definition run (c : Client) (events : list Event) : Client :=
  fold_left step events c.

End Picker.

(** ** Between the component and the server *)

Module Wire.
Import Js Server Navigator.

Definition direction_text (d : Direction) : string :=
  match d with
  | asc => "asc"
  | desc => "desc"
  end.

Section Requests.

(** [JSON.stringify] on a filter object, not unfolded. *)
Variable JSON_stringify : list (string * string) -> string.

(** A table name that a URL path and the decoding of Express leave as it
    is: not empty, of letters, digits and underscores. *)
Definition plain_segment (s : string) : bool :=
  negb (is_empty s) && forallb is_safe_char (list_ascii_of_string s).

(** What Express hands to the rows handler for the URL built by
    [fetchTableData] (lines 72-90): the path segments [table], [page] and
    [rowsPerPage], and the query parameters that were appended.  This is
    given for a table name that the path leaves as it is and for numbers in
    the range where their text is their decimal numeral; any other fetch has
    no request here ([None]). *)
Definition to_request (f : FetchRequest) : option RowsRequest :=
  if plain_segment (url_table f)
     && (Z.abs (url_page f) <? 2 ^ 53)
     && (Z.abs (url_pageSize f) <? 2 ^ 53)
  then
    Some {| Server.table := url_table f;
            Server.page := toString (Num (url_page f));
            Server.pageSize := toString (Num (url_pageSize f));
            Server.sortBy := option_map fst (url_sort f);
            Server.sortDirection :=
              option_map (fun s => direction_text (snd s)) (url_sort f);
            Server.filters := option_map JSON_stringify (url_filters f) |}
  else None.

End Requests.

(** The object a filter map parses to. *)
Definition filter_object (fs : list (string * string)) : json :=
  JObj (map (fun entry => (fst entry, JStr (snd entry))) fs).

(** [data.totalPages || 0] on what [res.json] serialises: a number that is
    not finite becomes [null]. *)
Definition sent_number (n : number) : option Z :=
  match n with
  | Num z => Some z
  | NaN | Infinity _ => None
  end.

(** What [fetchTableData] makes of an answer of the rows handler (lines
    94-100): a status outside 200-299 throws; otherwise the body is the
    [data].  A count that is a string stays a string in the state, which has
    no counterpart here ([None]). *)
Definition to_outcome (r : Response) : option FetchOutcome :=
  if (200 <=? status r) && (status r <? 300) then
    match body r with
    | JsonRows rows total _ pages =>
        match total with
        | Some (CStr _) => None
        | Some (CNum z) => Some (Data (Some rows) (Some z) (sent_number pages))
        | Some CNull | None => Some (Data (Some rows) None (sent_number pages))
        end
    | JsonList _ | JsonError _ _ => Some (Data None None None)
    end
  else Some Failed.

(** What the two list effects make of an answer of the server: only the
    body counts, the status is not looked at. *)
Definition to_payload (r : Response) : Picker.Payload :=
  match body r with
  | JsonList rows => Picker.Rows rows
  | JsonRows _ _ _ _ | JsonError _ _ => Picker.NotAnArray
  end.

End Wire.

(** ** Further inputs *)

Module MoreScenarios.
Import Js Effects Server Scenarios.

(** A filter object whose values are all blank. *)
Definition blank_fields : list (string * json) :=
  [("name", JStr "  "); ("age", JNull); ("city", JStr EmptyString)].

Definition blank_host : Host :=
  {| ENV_is_dev := true;
     JSON_parse := fun _ => Some (JObj blank_fields);
     StringToNumber := fun _ => NaN;
     connect_error := fun _ => None;
     execute_result := fun _ sql _ =>
       if prefix "SELECT COUNT" sql then inr count_41 else inr [one_row];
     token_result := inl (Error "metadata server not reachable");
     post_result := fun _ => inl (Error "remote service not reachable") |}.

(** The process with [shop] selected while connection 0, of another
    request, is open. *)
Definition busy_world : World :=
  {| dbConfig_database := Some "shop"; open_connections := [0%nat];
     next_conn_id := 1%nat; trace := [] |}.

(** A remote service that answers every query with no rows. *)
Definition empty_proxy_host : Host :=
  {| ENV_is_dev := false;
     JSON_parse := fun _ => None;
     StringToNumber := fun _ => NaN;
     connect_error := fun _ => Some (Error "no MySQL server");
     execute_result := fun _ _ _ => inl (Error "no MySQL server");
     token_result := inr "token";
     post_result := fun _ => inr [] |}.

(** A request without its table segment. *)
Definition no_table : RowsRequest :=
  {| table := EmptyString; page := "1"; pageSize := "20";
     sortBy := None; sortDirection := None; filters := None |}.

(** Events of the remote path. *)
Definition is_remote (e : Event) : bool :=
  match e with
  | TokenRequested | Posted _ => true
  | _ => false
  end.

(** Events of the MySQL path. *)
Definition is_local (e : Event) : bool :=
  match e with
  | Connected _ | ConnectFailed _ | Executed _ _ _ | Ended _ => true
  | _ => false
  end.

(** The characters an ORDER BY clause is made of. *)
Definition clause_char (c : ascii) : bool :=
  is_safe_char c || Ascii.eqb c " ".

(** The value of a decimal numeral read from the left, after [acc]. *)
Fixpoint uint_value (u : Decimal.uint) (acc : Z) : Z :=
  match u with
  | Decimal.Nil => acc
  | Decimal.D0 l => uint_value l (acc * 10 + 0)
  | Decimal.D1 l => uint_value l (acc * 10 + 1)
  | Decimal.D2 l => uint_value l (acc * 10 + 2)
  | Decimal.D3 l => uint_value l (acc * 10 + 3)
  | Decimal.D4 l => uint_value l (acc * 10 + 4)
  | Decimal.D5 l => uint_value l (acc * 10 + 5)
  | Decimal.D6 l => uint_value l (acc * 10 + 6)
  | Decimal.D7 l => uint_value l (acc * 10 + 7)
  | Decimal.D8 l => uint_value l (acc * 10 + 8)
  | Decimal.D9 l => uint_value l (acc * 10 + 9)
  end.

(** A filter map with one blank entry, and a host whose [JSON.parse] gives
    its object. *)
Definition mixed_filters : list (string * string) :=
  [("name", "al"); ("city", "  "); ("age", "4")].

Definition mixed_host : Host :=
  {| ENV_is_dev := true;
     JSON_parse := fun _ => Some (Wire.filter_object mixed_filters);
     StringToNumber := fun _ => NaN;
     connect_error := fun _ => None;
     execute_result := fun _ sql _ =>
       if prefix "SELECT COUNT" sql then inr count_41 else inr [one_row];
     token_result := inl (Error "metadata server not reachable");
     post_result := fun _ => inl (Error "remote service not reachable") |}.

(** A fetch of the second page of [users], sorted by [name] downwards and
    filtered by [name]. *)
Definition second_page_fetch : Navigator.FetchRequest :=
  {| Navigator.url_table := "users";
     Navigator.url_page := 2;
     Navigator.url_pageSize := 20;
     Navigator.url_sort := Some ("name", Navigator.desc);
     Navigator.url_filters := Some [("name", "al")] |}.

(** A world in which only the text of the filter [name: al] is ever
    stringified. *)
Definition stringify_name_al (fs : list (string * string)) : string :=
  name_al_text.

(** What the server is handed for that fetch. *)
Definition second_page_request : RowsRequest :=
  {| table := "users"; page := "2"; pageSize := "20";
     sortBy := Some "name"; sortDirection := Some "desc";
     filters := Some name_al_text |}.

(** [openTable === table] *)
Definition is_open (v : Navigator.ViewState) (t : string) : bool :=
  match Navigator.openTable v with
  | Some t' => String.eqb t' t
  | None => false
  end.

Definition flip (d : Navigator.Direction) : Navigator.Direction :=
  match d with
  | Navigator.asc => Navigator.desc
  | Navigator.desc => Navigator.asc
  end.

(** A fetch asks for a page from 1 on, with 20 rows a page, and names no
    blank filter (and no empty filter object). *)
Definition well_formed_fetch (f : Navigator.FetchRequest) : Prop :=
  1 <= Navigator.url_page f
  /\ Navigator.url_pageSize f = 20
  /\ match Navigator.url_filters f with
     | Some fs =>
         fs <> []
         /\ Forall (fun entry => is_empty (trim (snd entry)) = false) fs
     | None => True
     end.

(** A view on the last of three pages of 41 rows. *)
Definition last_page_view : Navigator.ViewState :=
  {| Navigator.debounceTimeout := None;
     Navigator.openTable := Some "users";
     Navigator.tableRows := [one_row];
     Navigator.tableColumns := ["id"; "name"];
     Navigator.rowsLoading := false;
     Navigator.currentPage := 3;
     Navigator.sortConfig := None;
     Navigator.filters := [("name", "al")];
     Navigator.totalRows := 41;
     Navigator.totalPages := 3 |}.

Definition last_page_client : Navigator.Client :=
  {| Navigator.view := last_page_view; Navigator.clock := 0;
     Navigator.timers := []; Navigator.next_timer_id := 1%nat;
     Navigator.issued := []; Navigator.in_flight := [];
     Navigator.next_fetch_id := 0%nat |}.

(** The current page is 1 or above and every fetch issued is well formed. *)
Definition fetches_ok (c : Navigator.Client) : Prop :=
  1 <= Navigator.currentPage (Navigator.view c)
  /\ Forall (fun f => well_formed_fetch (snd f)) (Navigator.issued c).

(** The rows of [SHOW DATABASES] and of [SHOW TABLES]. *)
Definition two_databases : list row :=
  [[("Database", CStr "shop")]; [("Database", CStr "hr")]].

Definition shop_tables : list row :=
  [[("Tables_in_shop", CStr "users")]; [("Tables_in_shop", CStr "orders")]].

Definition hr_tables : list row := [[("Tables_in_hr", CStr "staff")]].

(** The component after the two databases have arrived and the tables of
    [shop], the first of them, are listed. *)
Definition shop_listed : Picker.Client :=
  Picker.run Picker.mounted
    [Picker.DatabasesSettled (Picker.Rows two_databases);
     Picker.TablesSettled 0 (Picker.Rows shop_tables)].

(** A value of the [select] element. *)
Definition selectable (c : Picker.Client) (value : string) : bool :=
  existsb (fun n => String.eqb (Picker.name_text n) value)
    (Picker.databases (Picker.state c)).




End MoreScenarios.

(** * Properties *)

Import Js Effects Server Spec Scenarios.

(** ** The built-ins on examples *)

Example parseInt_decimal : parseInt "20" = Num 20.
Proof. reflexivity. Qed.

Example parseInt_prefix : parseInt " -12abc" = Num (-12).
Proof. reflexivity. Qed.

Example parseInt_hex : parseInt "0x1F" = Num 31.
Proof. reflexivity. Qed.

Example parseInt_no_digit : parseInt "abc" = NaN.
Proof. reflexivity. Qed.

Example toString_negative : toString (Num (-3)) = "-3".
Proof. reflexivity. Qed.

Example trim_both_ends : trim "  a b  " = "a b".
Proof. reflexivity. Qed.

Example ceil_of_41_by_20 : Math_ceil_div (Num 41) (Num 20) = Num 3.
Proof. reflexivity. Qed.

Example limit_of_bad_pageSize :
  dataQuery_of "users" EmptyString EmptyString (parseInt "x")
    (num_mul (num_sub (parseInt "1") (Num 1)) (parseInt "x"))
  = nl ++ "      SELECT * FROM users " ++ nl ++ "       " ++ nl
    ++ "      " ++ nl ++ "      LIMIT NaN OFFSET NaN" ++ nl ++ "    ".
Proof. reflexivity. Qed.

Example entries_of_mixed_object :
  active_entries [("a", JStr "x"); ("b", JStr "  "); ("c", JNull); ("d", JStr "y")]
  = inr [("a", "x"); ("d", "y")].
Proof. reflexivity. Qed.

Example entries_with_number :
  active_entries [("a", JStr "x"); ("b", JNum 5)]
  = inl (Error "value.trim is not a function").
Proof. reflexivity. Qed.

(** ** Strings *)

Lemma prefix_nil (s : string) : prefix EmptyString s = true.
Proof. destruct s; reflexivity. Qed.

Lemma prefix_app (t x : string) : prefix t (t ++ x) = true.
Proof.
  induction t as [|c t IH]; simpl.
  - apply prefix_nil.
  - destruct (ascii_dec c c); [exact IH | congruence].
Qed.

Lemma prefix_split (t s : string) :
  prefix t s = true -> exists x, s = t ++ x.
Proof.
  revert s. induction t as [|c t IH]; intros s H.
  - exists s. reflexivity.
  - destruct s as [|d s]; simpl in H; [discriminate|].
    destruct (ascii_dec c d) as [->|]; [|discriminate].
    destruct (IH s H) as [x ->]. exists x. reflexivity.
Qed.

Lemma append_assoc (a b c : string) : (a ++ b) ++ c = a ++ (b ++ c).
Proof. induction a as [|x a IH]; simpl; [reflexivity | now rewrite IH]. Qed.

Lemma includes_unfold (s t : string) :
  includes s t =
  if prefix t s then true
  else match s with
       | EmptyString => false
       | String _ r => includes r t
       end.
Proof. destruct s; reflexivity. Qed.

Lemma includes_here (t x : string) : includes (t ++ x) t = true.
Proof. now rewrite includes_unfold, prefix_app. Qed.

Lemma includes_app_r (a b t : string) :
  includes b t = true -> includes (a ++ b) t = true.
Proof.
  intros H. induction a as [|c a IH]; [exact H|].
  change (includes (String c (a ++ b)) t = true).
  rewrite includes_unfold, IH. now destruct (prefix t (String c (a ++ b))).
Qed.

Lemma includes_app_l (a b t : string) :
  includes a t = true -> includes (a ++ b) t = true.
Proof.
  induction a as [|c a IH]; intros H; rewrite includes_unfold in H.
  - destruct (prefix t EmptyString) eqn:P; [|discriminate].
    destruct (prefix_split _ _ P) as [x E].
    destruct t; [|discriminate].
    now rewrite includes_unfold, prefix_nil.
  - destruct (prefix t (String c a)) eqn:P.
    + destruct (prefix_split _ _ P) as [x E].
      rewrite E, append_assoc. apply includes_here.
    + change (includes (String c (a ++ b)) t = true).
      rewrite includes_unfold, (IH H).
      now destruct (prefix t (String c (a ++ b))).
Qed.

(** ** The statements of a rows request *)

Lemma join_includes (sep c : string) (parts : list string) :
  In c parts -> includes (join sep parts) c = true.
Proof.
  induction parts as [|p rest IH]; intros H; [destruct H|].
  destruct rest as [|q rest].
  - destruct H as [->|[]]. simpl.
    rewrite <- (includes_here c EmptyString) at 1.
    f_equal. clear. induction c; simpl; congruence.
  - change (includes (p ++ sep ++ join sep (q :: rest)) c = true).
    destruct H as [->|H].
    + apply includes_here.
    + apply includes_app_r, includes_app_r, IH, H.
Qed.

(** Every filter that is kept has its value in the text of the [WHERE]
    clause, between the quotes of a literal. *)
Lemma kept_filter_in_whereClause (kept : list (string * string)) k v :
  In (k, v) kept ->
  includes (whereClause_of (map condition kept)) (k ++ " LIKE '%" ++ v ++ "%'")
  = true.
Proof.
  intros H.
  assert (In (condition (k, v)) (map condition kept)) as Hc
    by (apply in_map; exact H).
  destruct (map condition kept) as [|c cs] eqn:E; [destruct Hc|].
  unfold whereClause_of. apply includes_app_r, join_includes, Hc.
Qed.

Lemma whereClause_in_dataQuery tbl whereClause orderByClause limit offset :
  includes (dataQuery_of tbl whereClause orderByClause limit offset) whereClause
  = true.
Proof.
  unfold dataQuery_of.
  do 6 apply includes_app_r. apply includes_here.
Qed.

(** The bound values of the data statement: one per kept filter, then the
    limit and the offset. *)
Lemma queryParams_count (kept : list (string * string)) (limit offset : number) :
  List.length (map filterParam kept ++ [PNum limit; PNum offset])
  = (List.length kept + 2)%nat.
Proof. now rewrite length_app, length_map. Qed.

(** For every filter object: each entry that is kept puts its value into
    the text of the [WHERE] clause and onto [filterParams], which has one
    entry per kept filter. *)
Lemma kept_filter_is_spliced_and_bound (h : Host) (text : string) filterObj
    entries kept k v :
  is_empty text = false ->
  JSON_parse h text = Some filterObj ->
  Object_entries filterObj = inr entries ->
  active_entries entries = inr kept ->
  In (k, v) kept ->
  exists whereClause filterParams,
    build_filters h (Some text) = inr (whereClause, filterParams)
    /\ includes whereClause (k ++ " LIKE '%" ++ v ++ "%'") = true
    /\ In (PStr ("%" ++ v ++ "%")) filterParams
    /\ List.length filterParams = List.length kept.
Proof.
  intros Htext Hparse Hentries Hkept Hin.
  exists (whereClause_of (map condition kept)), (map filterParam kept).
  unfold build_filters. rewrite Htext, Hparse, Hentries, Hkept.
  split; [reflexivity|]. split; [now apply kept_filter_in_whereClause|].
  split; [|apply length_map].
  change (PStr ("%" ++ v ++ "%")) with (filterParam (k, v)).
  now apply in_map.
Qed.

(** ** Effects of the handlers *)

Ltac prefix_of l t :=
  match l with
  | t => constr:(@nil Event)
  | ?a :: ?r => let p := prefix_of r t in constr:(a :: p)
  end.

Ltac unfold_effects :=
  unfold catching, respond_rows, respond_list, QueryFunctions.anyQuery, bind,
    try_catch, try_finally, ret, throw, execute, createConnection,
    connection_end, get_database, set_database, fetch_identity_token,
    post_query, log, first in *.

(** Case analysis on an innermost [match] of the goal. *)
Ltac split_match :=
  match goal with
  | |- context [match ?x with _ => _ end] =>
      lazymatch x with
      | context [match _ with _ => _ end] => fail
      | _ => destruct x eqn:?
      end
  end.


Lemma added_eq (w w' : World) (new : list Event) :
  trace w' = (new ++ trace w)%list -> added w w' = new.
Proof.
  intros E. unfold added. rewrite E, length_app.
  replace (List.length new + List.length (trace w) - List.length (trace w))%nat
    with (List.length new + 0)%nat by lia.
  rewrite firstn_app_2. simpl. apply app_nil_r.
Qed.

Ltac compute_added :=
  match goal with
  | |- context [added ?w ?w'] =>
      let l := eval cbn [trace] in (trace w') in
      let p := prefix_of l (trace w) in
      rewrite (added_eq w w' p eq_refl)
  | H : context [added ?w ?w'] |- _ =>
      let l := eval cbn [trace] in (trace w') in
      let p := prefix_of l (trace w) in
      rewrite (added_eq w w' p eq_refl) in H
  end.

Lemma in_filter_neq (n id : nat) (l : list nat) :
  In id (filter (fun i => negb (Nat.eqb i n)) (n :: l)) -> In id l.
Proof.
  simpl. rewrite Nat.eqb_refl. simpl. intros H.
  apply filter_In in H. tauto.
Qed.

(** The rows handler leaves no connection behind: whatever is open after
    it was open before it. *)
Lemma rows_handler_closes (h : Host) (req : RowsRequest) (w : World) id :
  In id (open_connections (snd (rows_handler h req w))) ->
  In id (open_connections w).
Proof.
  unfold rows_handler. unfold_effects.
  repeat (split_match; cbn [fst snd open_connections conn_id]);
    intros H; try exact H; try (apply in_filter_neq in H; exact H).
Qed.

(** The two introspection handlers do not: when the statement throws, the
    connection just opened is still open afterwards. *)
Lemma tableNames_handler_leaks (h : Host) (db : string) (w : World) e :
  ENV_is_dev h = true ->
  is_empty db = false ->
  connect_error h (Some db) = None ->
  execute_result h (Some db) "SHOW TABLES" [] = inl e ->
  tableNames_handler h db w
  = (res_failure "Failed to connect to database" e,
     {| dbConfig_database := Some db;
        open_connections := next_conn_id w :: open_connections w;
        next_conn_id := S (next_conn_id w);
        trace :=
          Executed {| conn_id := next_conn_id w; conn_database := Some db |}
            "SHOW TABLES" []
          :: Connected {| conn_id := next_conn_id w; conn_database := Some db |}
          :: trace w |}).
Proof.
  intros Hdev Hdb Hconn Hexec.
  unfold tableNames_handler. unfold_effects.
  rewrite Hdb, Hdev. cbn [dbConfig_database]. rewrite Hconn.
  cbn [conn_database]. now rewrite Hexec.
Qed.

Lemma databases_handler_leaks (h : Host) (w : World) e :
  ENV_is_dev h = true ->
  connect_error h (dbConfig_database w) = None ->
  execute_result h (dbConfig_database w) "SHOW DATABASES" [] = inl e ->
  open_connections (snd (databases_handler h w))
  = next_conn_id w :: open_connections w.
Proof.
  intros Hdev Hconn Hexec.
  unfold databases_handler. unfold_effects.
  rewrite Hdev, Hconn. cbn [conn_database]. now rewrite Hexec.
Qed.

Lemma rows_handler_database (h : Host) (req : RowsRequest) (w : World) :
  dbConfig_database (snd (rows_handler h req w)) = dbConfig_database w.
Proof.
  unfold rows_handler. unfold_effects.
  repeat (split_match; cbn [fst snd dbConfig_database]); reflexivity.
Qed.

Lemma databases_handler_database (h : Host) (w : World) :
  dbConfig_database (snd (databases_handler h w)) = dbConfig_database w.
Proof.
  unfold databases_handler. unfold_effects.
  repeat (split_match; cbn [fst snd dbConfig_database]); reflexivity.
Qed.

Lemma tableNames_handler_database (h : Host) (db : string) (w : World) :
  dbConfig_database (snd (tableNames_handler h db w))
  = if is_empty db then dbConfig_database w else Some db.
Proof.
  unfold tableNames_handler. unfold_effects.
  repeat (split_match; cbn [fst snd dbConfig_database]); reflexivity.
Qed.

Lemma serve_database (h : Host) (requests : list Request) (w : World) :
  dbConfig_database (snd (serve h requests w))
  = selected requests (dbConfig_database w).
Proof.
  revert w. induction requests as [|r rest IH]; intros w; [reflexivity|].
  simpl. destruct (handle h r w) as [answer w1] eqn:E.
  specialize (IH w1). destruct (serve h rest w1) as [answers w2]. simpl in *.
  rewrite IH. replace w1 with (snd (handle h r w)) by now rewrite E.
  destruct r as [req|db|]; simpl.
  - now rewrite rows_handler_database.
  - now rewrite tableNames_handler_database.
  - now rewrite databases_handler_database.
Qed.

(** Every statement the rows handler runs on a connection targets the
    database found in [dbConfig] when the handler starts. *)
Lemma rows_handler_targets (h : Host) (req : RowsRequest) (w : World) e db :
  In e (added w (snd (rows_handler h req w))) ->
  In db (targets e) ->
  db = dbConfig_database w.
Proof.
  unfold rows_handler. unfold_effects.
  repeat (split_match; cbn [fst snd]); compute_added; cbn [In];
    intros H T; repeat destruct H as [H|H]; subst; try destruct H;
    cbn [targets conn_database In] in T; intuition congruence.
Qed.

(** With no database selected the rows handler answers 400 and reaches no
    backend. *)
Lemma rows_without_selection (h : Host) (req : RowsRequest) (w : World)
    whereClause filterParams :
  ENV_is_dev h = true ->
  is_empty (table req) || is_empty (page req) || is_empty (pageSize req)
  = false ->
  build_filters h (filters req) = inr (whereClause, filterParams) ->
  dbConfig_database w = None ->
  rows_handler h req w = (res_status_json 400 "Database not selected", w).
Proof.
  intros Hdev Hpath Hbuild Hnone.
  unfold rows_handler. unfold_effects. cbv zeta.
  now rewrite Hpath, Hbuild, Hdev, Hnone.
Qed.

(** ** Identifiers *)

Lemma sanitize_safe (s : string) : safe_identifier (sanitize s) = true.
Proof.
  unfold safe_identifier.
  induction s as [|c s IH]; [reflexivity|].
  simpl. destruct (is_safe_char c) eqn:E; [|exact IH].
  simpl. now rewrite E.
Qed.

Lemma sanitize_fixed (s : string) :
  safe_identifier s = true -> sanitize s = s.
Proof.
  unfold safe_identifier.
  induction s as [|c s IH]; [reflexivity|].
  simpl. intros H. apply andb_prop in H as [Hc Hs].
  now rewrite Hc, (IH Hs).
Qed.

Lemma sanitize_idempotent (s : string) : sanitize (sanitize s) = sanitize s.
Proof. apply sanitize_fixed, sanitize_safe. Qed.

Lemma sanitize_nonempty (s : string) :
  is_empty (sanitize s) = false -> is_empty s = false.
Proof. now destruct s. Qed.

(** C1: at the request [filters={"name":"al"}] on the Direct backend the
    filter value [al] is part of the text of both statements, which have no
    placeholder; the bound values are one per filter, then limit and offset. *)
Theorem filter_value_spliced_into_statement_text :
  let countQuery := "SELECT COUNT(*) as total FROM users WHERE name LIKE '%al%'" in
  let dataQuery :=
    nl ++ "      SELECT * FROM users " ++ nl
    ++ "      WHERE name LIKE '%al%' " ++ nl
    ++ "      " ++ nl
    ++ "      LIMIT 20 OFFSET 0" ++ nl
    ++ "    " in
  trace (snd (rows_handler direct_host users_named_al shop_selected))
  = [ Ended shop_connection;
      Executed shop_connection dataQuery
        [PStr "%al%"; PNum (Num 20); PNum (Num 0)];
      Executed shop_connection countQuery [PStr "%al%"];
      Connected shop_connection ]
  /\ includes dataQuery "LIKE '%al%'" = true
  /\ includes dataQuery "?" = false
  /\ includes countQuery "?" = false.
Proof. vm_compute. repeat split; reflexivity. Qed.

(** C2, as stated, fails: a request whose sort column has characters outside
    the safe pattern is answered 200, after its statements were run. *)
Lemma unsafe_identifier_not_rejected :
  ~ (forall h req w,
       names_unsafe_identifier h req ->
       status (fst (rows_handler h req w)) = 400
       /\ existsb is_statement (added w (snd (rows_handler h req w))) = false).
Proof.
  intros claim.
  destruct (claim direct_host users_sorted_unsafe shop_selected) as [H _].
  - right; left. exists "age;--". split; reflexivity.
  - vm_compute in H. discriminate H.
Qed.

(** C2, amended: a sort column is not rejected; the characters outside
    [A-Za-z0-9_] are removed from it, what remains (which matches the safe
    pattern) is put into the ORDER BY clause, and the request is handled as
    the request for the stripped column. *)
Theorem unsafe_sort_column_is_stripped :
  forall h req w s,
    sortBy req = Some s ->
    is_empty (sanitize s) = false ->
    safe_identifier (sanitize s) = true
    /\ orderByClause_of (sortBy req) (sortDirection req)
       = "ORDER BY " ++ sanitize s ++ " "
         ++ match sortDirection req with
            | Some d => if String.eqb d "desc" then "DESC" else "ASC"
            | None => "ASC"
            end
    /\ rows_handler h req w = rows_handler h (with_sortBy (Some (sanitize s)) req) w.
Proof.
  intros h req w s Hs Hne.
  assert (Hclause :
            orderByClause_of (sortBy req) (sortDirection req)
            = "ORDER BY " ++ sanitize s ++ " "
              ++ match sortDirection req with
                 | Some d => if String.eqb d "desc" then "DESC" else "ASC"
                 | None => "ASC"
                 end).
  { rewrite Hs. unfold orderByClause_of.
    now rewrite (sanitize_nonempty s Hne). }
  split; [apply sanitize_safe|]. split; [exact Hclause|].
  assert (Hsame :
            orderByClause_of (Some (sanitize s)) (sortDirection req)
            = orderByClause_of (sortBy req) (sortDirection req)).
  { rewrite Hclause. unfold orderByClause_of.
    now rewrite Hne, sanitize_idempotent. }
  unfold rows_handler, with_sortBy.
  cbn [table page pageSize sortBy sortDirection filters].
  now rewrite Hsame.
Qed.

Lemma unsafe_sort_column_is_stripped_witness :
  safe_identifier "age" = true
  /\ orderByClause_of (Some "age;--") (Some "desc") = "ORDER BY age DESC"
  /\ rows_handler direct_host users_sorted_unsafe shop_selected
     = rows_handler direct_host
         (with_sortBy (Some "age") users_sorted_unsafe) shop_selected.
Proof.
  apply (unsafe_sort_column_is_stripped direct_host users_sorted_unsafe
           shop_selected "age;--"); reflexivity.
Defined.

(** C4: on the Direct backend, when the statement of [/api/tableNames/:db]
    or of [/api/databases] throws, the handler answers 500 and the
    connection it opened stays open; no [end] is sent. *)
Theorem failed_statement_leaves_connection_open :
  let c := {| conn_id := 0; conn_database := Some "shop" |} in
  let c' := {| conn_id := 0; conn_database := None |} in
  tableNames_handler failing_host "shop" initial_world
  = ( {| status := 500;
         body := JsonError "Failed to connect to database"
                   (Some "Connection lost") |},
      {| dbConfig_database := Some "shop"; open_connections := [0%nat];
         next_conn_id := 1;
         trace := [Executed c "SHOW TABLES" []; Connected c] |} )
  /\ databases_handler failing_host initial_world
     = ( {| status := 500;
            body := JsonError "Failed to fetch databases"
                      (Some "Connection lost") |},
         {| dbConfig_database := None; open_connections := [0%nat];
            next_conn_id := 1;
            trace := [Executed c' "SHOW DATABASES" []; Connected c'] |} ).
Proof. split; reflexivity. Qed.

(** C5, as stated, fails: the same rows request runs against [shop] after
    [/api/tableNames/shop] and against [hr] after [/api/tableNames/hr]. *)
Lemma rows_target_depends_on_tableNames :
  ~ (forall h db1 db2 req w,
       ENV_is_dev h = true ->
       let w1 := snd (tableNames_handler h db1 w) in
       let w2 := snd (tableNames_handler h db2 w) in
       flat_map targets (added w1 (snd (rows_handler h req w1)))
       = flat_map targets (added w2 (snd (rows_handler h req w2)))).
Proof.
  intros claim.
  specialize (claim direct_host "shop" "hr" users_page_1 initial_world eq_refl).
  vm_compute in claim. discriminate claim.
Qed.

(** C5, amended: on the Direct backend every statement of a rows request
    runs against the database named by the latest [/api/tableNames/:db]
    request the process has handled (the module-level [dbConfig] is shared
    by all requests). *)
Theorem rows_target_is_last_selected :
  forall h requests w req e db,
    let w1 := snd (serve h requests w) in
    In e (added w1 (snd (rows_handler h req w1))) ->
    In db (targets e) ->
    db = selected requests (dbConfig_database w).
Proof.
  intros h requests w req e db w1 He Hdb.
  rewrite <- (serve_database h requests w). fold w1.
  exact (rows_handler_targets h req w1 e db He Hdb).
Qed.

Lemma rows_target_is_last_selected_witness :
  Some "hr"
  = selected [GetTableNames "shop"; GetDatabases; GetTableNames "hr"] None.
Proof.
  apply (rows_target_is_last_selected direct_host
           [GetTableNames "shop"; GetDatabases; GetTableNames "hr"]
           initial_world users_page_1
           (Executed {| conn_id := 3; conn_database := Some "hr" |}
              "SELECT COUNT(*) as total FROM users " [])
           (Some "hr")).
  - vm_compute. right. right. left. reflexivity.
  - left. reflexivity.
Defined.

(** ** Decimal numerals *)

Import MoreScenarios.

Lemma parse_digits_numeral (u : Decimal.uint) (a : Z) :
  parse_digits 10 (NilEmpty.string_of_uint u) (Some a) = Some (uint_value u a).
Proof.
  revert a. induction u; intros a; cbn [NilEmpty.string_of_uint uint_value];
    try reflexivity;
    cbn [parse_digits]; (rewrite <- IHu; reflexivity).
Qed.

Lemma parse_digits_numeral_first (u : Decimal.uint) :
  u <> Decimal.Nil ->
  parse_digits 10 (NilEmpty.string_of_uint u) None = Some (uint_value u 0).
Proof.
  destruct u; intros H; try (now elim H);
    cbn [NilEmpty.string_of_uint uint_value parse_digits];
    (rewrite <- parse_digits_numeral; reflexivity).
Qed.

Lemma of_uint_acc_value (u : Decimal.uint) (acc : positive) :
  Z.pos (Pos.of_uint_acc u acc) = uint_value u (Z.pos acc).
Proof.
  revert acc. induction u; intros acc; cbn [Pos.of_uint_acc uint_value];
    try reflexivity; rewrite IHu; f_equal; lia.
Qed.

Lemma of_uint_value (u : Decimal.uint) :
  Z.of_N (Pos.of_uint u) = uint_value u 0.
Proof.
  induction u; cbn [Pos.of_uint uint_value]; try reflexivity;
    try exact IHu; cbn [Z.of_N]; rewrite of_uint_acc_value; reflexivity.
Qed.

Lemma to_uint_value (p : positive) : uint_value (Pos.to_uint p) 0 = Z.pos p.
Proof.
  rewrite <- of_uint_value, DecimalPos.Unsigned.of_to. reflexivity.
Qed.

Lemma to_uint_not_nil (p : positive) : Pos.to_uint p <> Decimal.Nil.
Proof.
  intros E. pose proof (to_uint_value p) as H. rewrite E in H. discriminate H.
Qed.

(** A numeral starts with a digit: nothing is trimmed from it, it has no
    sign and no [0x]. *)
Lemma numeral_plain (u : Decimal.uint) :
  u <> Decimal.Nil ->
  let s := NilEmpty.string_of_uint u in
  trimStart s = s
  /\ strip_hex_prefix s = None
  /\ match s with
     | String "-" _ | String "+" _ => False
     | _ => True
     end.
Proof.
  intros H. destruct u as [|u|u|u|u|u|u|u|u|u|u]; try (now elim H);
    cbn; (split; [reflexivity|]); (split; [|exact I]);
    destruct u; reflexivity.
Qed.

Lemma parseInt_numeral (u : Decimal.uint) :
  u <> Decimal.Nil ->
  parseInt (NilEmpty.string_of_uint u) = Num (uint_value u 0).
Proof.
  intros H. destruct (numeral_plain u H) as (Htrim & Hhex & Hsign).
  unfold parseInt. cbv zeta in Htrim, Hhex, Hsign. rewrite Htrim.
  destruct (NilEmpty.string_of_uint u) as [|c s] eqn:E.
  - destruct u; try (now elim H); discriminate E.
  - assert (Hplain :
              match String c s with
              | String "-" r => (true, r)
              | String "+" r => (false, r)
              | _ => (false, String c s)
              end = (false, String c s)).
    { destruct c as [[] [] [] [] [] [] [] []]; try reflexivity;
        now elim Hsign. }
    rewrite Hplain, Hhex, <- E, (parse_digits_numeral_first u H).
    reflexivity.
Qed.

Lemma parseInt_negative (s : string) :
  parseInt (String "-" s)
  = let '(radix, digits) :=
      match strip_hex_prefix s with
      | Some r => (16, r)
      | None => (10, s)
      end in
    match parse_digits radix digits None with
    | None => NaN
    | Some v => Num (- v)
    end.
Proof. reflexivity. Qed.

(** [parseInt] reads back the decimal text of every integer. *)
Lemma parseInt_toString (z : Z) : parseInt (toString (Num z)) = Num z.
Proof.
  destruct z as [|p|p].
  - reflexivity.
  - cbn [toString]. unfold string_of_Z.
    cbn [Z.to_int NilZero.string_of_int].
    pose proof (to_uint_not_nil p) as H.
    replace (NilZero.string_of_uint (Pos.to_uint p))
      with (NilEmpty.string_of_uint (Pos.to_uint p))
      by (destruct (Pos.to_uint p); [now elim H | reflexivity..]).
    now rewrite (parseInt_numeral _ H), to_uint_value.
  - cbn [toString]. unfold string_of_Z.
    cbn [Z.to_int NilZero.string_of_int].
    pose proof (to_uint_not_nil p) as H.
    replace (NilZero.string_of_uint (Pos.to_uint p))
      with (NilEmpty.string_of_uint (Pos.to_uint p))
      by (destruct (Pos.to_uint p); [now elim H | reflexivity..]).
    destruct (numeral_plain _ H) as (_ & Hhex & _). cbv zeta in Hhex.
    rewrite parseInt_negative, Hhex, (parse_digits_numeral_first _ H),
      to_uint_value.
    reflexivity.
Qed.

(** ** The LIMIT clause in the text of the data statement *)














(** ** The rows response *)









(** C7: when both statements of a rows request run and succeed and the data
    statement returns no row, the answer is 404 [No data found], on either
    backend. *)
Theorem empty_result_is_404 :
  forall h req w whereClause filterParams totalCount,
    is_empty (table req) || is_empty (page req) || is_empty (pageSize req)
    = false ->
    build_filters h (filters req) = inr (whereClause, filterParams) ->
    queries_return h req w whereClause filterParams totalCount [] ->
    fst (rows_handler h req w) = res_status_json 404 "No data found".
Proof.
  intros h req w whereClause filterParams totalCount Hpath Hbuild Hq.
  unfold queries_return in Hq. cbv zeta in Hq.
  unfold rows_handler. unfold_effects. cbv zeta.
  rewrite Hpath, Hbuild.
  destruct (ENV_is_dev h); cbv beta iota zeta.
  - destruct Hq as (Hdb & Hconn & Hcount & Hdata).
    rewrite Hdb. cbn [negb]. rewrite Hconn. cbn [conn_database].
    now rewrite Hcount, Hdata.
  - destruct Hq as ((token & Htoken) & Hcount & Hdata).
    now rewrite Htoken, Hcount, Hdata.
Qed.

Lemma empty_result_is_404_witness :
  fst (rows_handler empty_table_host users_page_1 shop_selected)
  = res_status_json 404 "No data found".
Proof.
  apply (empty_result_is_404 empty_table_host users_page_1 shop_selected
           EmptyString [] [[("total", CNum 0)]]).
  - reflexivity.
  - reflexivity.
  - repeat split.
Defined.

(** ** The remote query service *)

Lemma proxied_body (statement : string) (ps : option (list param)) :
  QueryFunctions.request_body
    {| QueryFunctions.prj := None; QueryFunctions.ds := None;
       QueryFunctions.tbl := Some statement;
       QueryFunctions.select := Some "*";
       QueryFunctions.conditions := None;
       QueryFunctions.params := ps |}
  = proxied statement.
Proof. reflexivity. Qed.

(** C9: on the Proxy path a rows request whose path and filters are accepted
    asks for an identity token and posts the whole count statement as the
    table of [SELECT * FROM <tbl> ;]; when that is answered it asks for a
    token again and posts the whole data statement the same way.  These are
    all the events of the request: [filterParams], the limit and the offset
    are in none of them but as text of the statements, and [anyQuery] does
    the same whatever [params] it is passed. *)
Theorem proxy_sends_statement_as_table :
  forall h req w whereClause filterParams,
    ENV_is_dev h = false ->
    is_empty (table req) || is_empty (page req) || is_empty (pageSize req)
    = false ->
    build_filters h (filters req) = inr (whereClause, filterParams) ->
    let countQuery := countQuery_of (table req) whereClause in
    let dataQuery :=
      dataQuery_of (table req) whereClause
        (orderByClause_of (sortBy req) (sortDirection req))
        (parseInt (pageSize req))
        (num_mul (num_sub (parseInt (page req)) (Num 1))
           (parseInt (pageSize req))) in
    added w (snd (rows_handler h req w))
    = match token_result h with
      | inl _ => [TokenRequested]
      | inr _ =>
          match post_result h (proxied countQuery) with
          | inl _ => [Posted (proxied countQuery); TokenRequested]
          | inr _ =>
              [Posted (proxied dataQuery); TokenRequested;
               Posted (proxied countQuery); TokenRequested]
          end
      end
    /\ (forall o ps,
           QueryFunctions.anyQuery h (with_params ps o)
           = QueryFunctions.anyQuery h o).
Proof.
  intros h req w whereClause filterParams Hdev Hpath Hfilters
    countQuery dataQuery.
  split; [|reflexivity].
  unfold rows_handler. rewrite Hpath, Hfilters. cbv zeta. rewrite Hdev.
  unfold_effects. rewrite !proxied_body. fold countQuery dataQuery.
  destruct (token_result h) eqn:Htoken; cbn [fst snd];
    [compute_added; reflexivity|].
  destruct (post_result h (proxied countQuery)) eqn:Hcount; cbn [fst snd];
    [compute_added; reflexivity|].
  repeat (split_match; cbn [fst snd]); compute_added; reflexivity.
Qed.

Lemma proxy_sends_statement_as_table_witness :
  let countQuery := countQuery_of "users" "WHERE name LIKE '%al%'" in
  let dataQuery :=
    dataQuery_of "users" "WHERE name LIKE '%al%'" EmptyString
      (Num 20) (Num 0) in
  added shop_selected
    (snd (rows_handler proxy_host users_named_al shop_selected))
  = [Posted (proxied dataQuery); TokenRequested;
     Posted (proxied countQuery); TokenRequested]
  /\ (forall o ps,
         QueryFunctions.anyQuery proxy_host (with_params ps o)
         = QueryFunctions.anyQuery proxy_host o).
Proof.
  exact (proxy_sends_statement_as_table proxy_host users_named_al
           shop_selected "WHERE name LIKE '%al%'" [PStr "%al%"]
           eq_refl eq_refl eq_refl).
Defined.

(** What the remote service receives for [filters={"name":"al"}]. *)
Example proxy_trace :
  trace (snd (rows_handler proxy_host users_named_al shop_selected))
  = [ Posted (proxied (nl ++ "      SELECT * FROM users " ++ nl
                       ++ "      WHERE name LIKE '%al%' " ++ nl
                       ++ "      " ++ nl
                       ++ "      LIMIT 20 OFFSET 0" ++ nl
                       ++ "    "));
      TokenRequested;
      Posted (proxied "SELECT COUNT(*) as total FROM users WHERE name LIKE '%al%'");
      TokenRequested ].
Proof. reflexivity. Qed.

(** ** The view state of the Navigator *)

Import Navigator ViewScenarios.

Lemma run_app (c : Client) (l1 l2 : list Navigator.Event) :
  run c (l1 ++ l2) = run (run c l1) l2.
Proof. apply fold_left_app. Qed.

Lemma existsb_eqb_In (id : nat) (l : list nat) :
  In id l -> existsb (Nat.eqb id) l = true.
Proof.
  intros H. apply existsb_exists. exists id. split; [exact H|].
  apply Nat.eqb_refl.
Qed.

Lemma fetch_settled_rows (r : FetchOutcome) (v : ViewState) :
  tableRows (fetch_settled r v) = shown_rows r.
Proof. destruct r as [[[|first_row rest]|] ? ?|]; reflexivity. Qed.

(** C3, as stated, fails: fetch 1 (page 1) is issued before fetch 3
    (page 2) and answered after it, and the rows on display at the end are
    those of page 1 while the page shown as current is 2. *)
Lemma stale_response_overwrites_latest :
  let c := run initial_client overlapping_fetches in
  map (fun f => (fst f, url_page (snd f))) (issued c)
  = [(3%nat, 2); (2%nat, 1); (1%nat, 1); (0%nat, 1)]
  /\ currentPage (view c) = 2
  /\ tableRows (view c) = page_1_rows
  /\ tableRows (view c) <> page_2_rows.
Proof. vm_compute. repeat split; discriminate. Qed.

(** C3, amended: the result of a fetch is applied when it settles, whether
    or not another fetch was issued after it; after any sequence of events
    the rows on display are those of the fetch that settled last. *)
Theorem settled_fetch_is_applied :
  forall c events id r,
    In id (in_flight (run c events)) ->
    tableRows (view (run c (events ++ [Settle id r]))) = shown_rows r.
Proof.
  intros c events id r Hin.
  rewrite run_app. cbn [run fold_left step]. unfold settle.
  rewrite (existsb_eqb_In _ _ Hin). cbn [view].
  apply fetch_settled_rows.
Qed.

Lemma settled_fetch_is_applied_witness :
  tableRows
    (view (run initial_client
             ([ ClickTable "users"; Settle 0 (answer page_1_rows);
                ClickSort "name"; ClickSort "name";
                Settle 2 (answer page_1_rows);
                ClickNext; Settle 3 (answer page_2_rows) ]
              ++ [Settle 1 (answer page_1_rows)])))
  = shown_rows (answer page_1_rows).
Proof.
  apply (settled_fetch_is_applied initial_client
           [ ClickTable "users"; Settle 0 (answer page_1_rows);
             ClickSort "name"; ClickSort "name";
             Settle 2 (answer page_1_rows);
             ClickNext; Settle 3 (answer page_2_rows) ]
           1%nat (answer page_1_rows)).
  vm_compute. left. reflexivity.
Defined.

(** C8: with page 2 on display, the keystrokes [a], [al], [ali] in the
    filter of [name], 100 time units apart, are followed after 300 time units
    by one fetch, for page 1, whose filter is [al]: the callback reads the
    filters of the render in which the last keystroke was handled. *)
Theorem debounced_fetch_reads_stale_filters :
  let before := run initial_client on_page_2 in
  let after := run before typing_ali in
  currentPage (view before) = 2
  /\ filters (view after) = [("name", "ali")]
  /\ currentPage (view after) = 1
  /\ timers after = []
  /\ issued after
     = (2%nat,
        {| url_table := "users"; url_page := 1; url_pageSize := 20;
           url_sort := None; url_filters := Some [("name", "al")] |})
       :: issued before.
Proof. vm_compute. repeat split. Qed.

(** C10: [handleSort] leaves the current page and the filters as they are
    and sets the sort configuration; when a table is open it issues one
    fetch, for the current page.  Of the other cells only [rowsLoading]
    changes, raised by that fetch. *)
Theorem handleSort_keeps_page_and_filters :
  forall c k,
    let v := view c in
    let c' := handleSort v k c in
    currentPage (view c') = currentPage v
    /\ filters (view c') = filters v
    /\ sortConfig (view c')
       = Some {| key := k; direction := sort_direction v k |}
    /\ (openTable (view c'), tableRows (view c'), tableColumns (view c'),
        totalRows (view c'), totalPages (view c'), debounceTimeout (view c'))
       = (openTable v, tableRows v, tableColumns v,
          totalRows v, totalPages v, debounceTimeout v)
    /\ (timers c', clock c') = (timers c, clock c)
    /\ match openTable v with
       | Some t =>
           if is_empty t
           then issued c' = issued c
                /\ rowsLoading (view c') = rowsLoading v
           else issued c' = (next_fetch_id c, sort_fetch v k t) :: issued c
                /\ rowsLoading (view c') = true
       | None =>
           issued c' = issued c /\ rowsLoading (view c') = rowsLoading v
       end.
Proof.
  intros c k v c'. subst v c'. unfold handleSort.
  destruct (openTable (view c)) as [t|] eqn:Ht.
  - destruct (is_empty t) eqn:Et; cbn; rewrite ?Ht, ?Et; cbn; repeat split.
  - cbn; rewrite ?Ht; repeat split.
Qed.

(** By contrast the callback of a filter edit sets the current page to 1. *)
Lemma debounced_resets_page (render : ViewState) (c : Client) :
  currentPage (view (debounced render c)) = 1.
Proof.
  unfold debounced.
  destruct (openTable render) as [t|]; [destruct (is_empty t)|]; reflexivity.
Qed.

(** ** The debounce of filter edits, in general *)

Lemma keystroke_sets_one_timer (c : Client) (column value : string) :
  debounce_ready c ->
  header_shown (view c) column = true ->
  step c (TypeFilter column value)
  = {| view := setDebounceTimeout (Some (next_timer_id c))
                 (setFilters (assign column value) (view c));
       clock := clock c;
       timers := [ {| timer_id := next_timer_id c; due := clock c + 300;
                      render := view c |} ];
       next_timer_id := S (next_timer_id c);
       issued := issued c;
       in_flight := in_flight c;
       next_fetch_id := next_fetch_id c |}.
Proof.
  intros [Hid Htm] Hshown. cbn [step]. rewrite Hshown.
  destruct c as [v clk tms ntid iss infl nfid]. cbn in *.
  unfold handleFilterChange. cbn.
  destruct tms as [|tm [|tm' tms]]; [| |destruct Htm].
  - destruct (debounceTimeout v) as [id|]; [destruct (Nat.eqb id 0)|];
      reflexivity.
  - destruct Htm as (Hd & Hne & _). rewrite Hd.
    destruct (Nat.eqb_spec (timer_id tm) 0) as [E|_]; [contradiction|].
    cbn. now rewrite Nat.eqb_refl.
Qed.

Lemma pause_fires_nothing (c : Client) (tm : Timer) (dt : Z) :
  timers c = [tm] -> 0 <= dt -> clock c + dt < due tm ->
  step c (Elapse dt)
  = {| view := view c; clock := clock c + dt; timers := timers c;
       next_timer_id := next_timer_id c; issued := issued c;
       in_flight := in_flight c; next_fetch_id := next_fetch_id c |}.
Proof.
  intros Htm Hdt Hdue. cbn [step].
  destruct (Z.leb_spec 0 dt) as [_|]; [|lia].
  unfold elapse, due_timers. rewrite Htm. cbn [filter].
  destruct (Z.leb_spec (due tm) (clock c + dt)) as [|_]; [lia|].
  reflexivity.
Qed.

Lemma wait_fires_the_timer (c : Client) (tm : Timer) (dt : Z) :
  timers c = [tm] -> 0 <= dt -> due tm <= clock c + dt ->
  step c (Elapse dt)
  = debounced (render tm)
      {| view := view c; clock := clock c + dt; timers := [];
         next_timer_id := next_timer_id c; issued := issued c;
         in_flight := in_flight c; next_fetch_id := next_fetch_id c |}.
Proof.
  intros Htm Hdt Hdue. cbn [step].
  destruct (Z.leb_spec 0 dt) as [_|]; [|lia].
  unfold elapse, due_timers. rewrite Htm. cbn [filter].
  destruct (Z.leb_spec (due tm) (clock c + dt)) as [_|]; [|lia].
  cbn [fold_right insert_timer fold_left]. unfold fire, clearTimeout.
  cbn. now rewrite Nat.eqb_refl.
Qed.

(** Quick keystrokes issue no fetch and leave one timer pending. *)
Lemma typing_issues_nothing (keys : list (string * string * Z)) :
  forall c,
    debounce_ready c ->
    (exists t, openTable (view c) = Some t) ->
    quick (tableColumns (view c)) keys ->
    let c1 := run c (typing keys) in
    debounce_ready c1
    /\ openTable (view c1) = openTable (view c)
    /\ tableColumns (view c1) = tableColumns (view c)
    /\ sortConfig (view c1) = sortConfig (view c)
    /\ issued c1 = issued c
    /\ next_fetch_id c1 = next_fetch_id c.
Proof.
  induction keys as [|[[column value] pause] rest IH]; intros c Hready Hopen Hquick.
  - cbn. repeat split; try reflexivity; apply Hready.
  - apply Forall_cons_iff in Hquick as [[Hcol Hpause] Hrest].
    cbn [fst snd] in Hcol, Hpause.
    destruct Hopen as [t Ht].
    assert (Hshown : header_shown (view c) column = true)
      by (unfold header_shown; now rewrite Ht).
    change (run c (typing ((column, value, pause) :: rest)))
      with (run (step (step c (TypeFilter column value)) (Elapse pause))
              (typing rest)).
    rewrite (keystroke_sets_one_timer c column value Hready Hshown).
    erewrite pause_fires_nothing; [|reflexivity|lia|cbn; lia].
    cbn [view clock timers next_timer_id issued in_flight next_fetch_id].
    match goal with |- context [run ?c0 _] => set (c' := c0) end.
    destruct (IH c') as (R & O & C & S' & I & N).
    + subst c'. split; cbn; [discriminate|].
      repeat split; [|lia].
      destruct Hready as [Hid _]. exact Hid.
    + exists t. exact Ht.
    + exact Hrest.
    + cbv zeta. rewrite O, C, S', I, N. subst c'. cbn.
      repeat split; exact R || apply R.
Qed.

(** After quick keystrokes and a last one followed by a wait of the debounce
    delay or more: one fetch is issued, for page 1, and the filters it sends
    are those of the state before the last keystroke. *)
Lemma debounced_fetch_in_general :
  forall c t keys column value wait,
    debounce_ready c ->
    openTable (view c) = Some t ->
    is_empty t = false ->
    quick (tableColumns (view c)) keys ->
    mem column (tableColumns (view c)) = true ->
    300 <= wait ->
    let c1 := run c (typing keys) in
    let c2 := run c1 [TypeFilter column value; Elapse wait] in
    issued c2
    = (next_fetch_id c,
       {| url_table := t; url_page := 1; url_pageSize := rowsPerPage;
          url_sort := sort_parameter (sortConfig (view c));
          url_filters := filters_parameter (filters (view c1)) |})
      :: issued c
    /\ filters (view c2) = assign column value (filters (view c1))
    /\ currentPage (view c2) = 1
    /\ timers c2 = [].
Proof.
  intros c t keys column value wait Hready Ht Hne Hquick Hcol Hwait c1 c2.
  destruct (typing_issues_nothing keys c Hready (ex_intro _ t Ht) Hquick)
    as (R & O & C & S' & I & N).
  fold c1 in R, O, C, S', I, N.
  assert (Hshown : header_shown (view c1) column = true)
    by (unfold header_shown; now rewrite O, Ht, C).
  subst c2.
  change (run c1 [TypeFilter column value; Elapse wait])
    with (step (step c1 (TypeFilter column value)) (Elapse wait)).
  rewrite (keystroke_sets_one_timer c1 column value R Hshown).
  erewrite wait_fires_the_timer; [|reflexivity|lia|cbn; lia].
  cbn [render view clock timers next_timer_id issued in_flight next_fetch_id].
  unfold debounced. rewrite O, Ht, Hne.
  unfold fetchTableData, sort_key, sort_dir, sort_parameter, filters_parameter.
  rewrite S', <- I, <- N.
  destruct (sortConfig (view c)) as [[k d]|]; cbn; repeat split.
Qed.

Example debounced_fetch_after_ali :
  let c := run initial_client on_page_2 in
  let c1 := run c (typing [("name", "a", 100); ("name", "al", 100)]) in
  filters_parameter (filters (view c1)) = Some [("name", "al")]
  /\ hd_error (issued (run c1 [TypeFilter "name" "ali"; Elapse 300]))
     = Some (2%nat,
             {| url_table := "users"; url_page := 1; url_pageSize := 20;
                url_sort := None; url_filters := Some [("name", "al")] |}).
Proof.
  intros c c1. split; [reflexivity|].
  destruct (debounced_fetch_in_general c "users"
              [("name", "a", 100); ("name", "al", 100)] "name" "ali" 300)
    as (E & _).
  - split; [discriminate | exact I].
  - reflexivity.
  - reflexivity.
  - repeat constructor; cbn; lia.
  - reflexivity.
  - lia.
  - fold c1 in E. rewrite E. reflexivity.
Qed.

(** * Further properties of the server *)

Import MoreScenarios.

(** ** Blank values *)

Lemma trimStart_chars (s : string) :
  is_empty (trimStart s) = forallb isWhiteSpace (list_ascii_of_string s).
Proof.
  induction s as [|c s IH]; [reflexivity|].
  simpl. destruct (isWhiteSpace c); [exact IH | reflexivity].
Qed.

Lemma trimStart_blank (s : string) :
  is_empty (trimStart s) = true -> is_empty (trim s) = true.
Proof.
  unfold trim, trimEnd. intros H.
  destruct (trimStart s); [reflexivity | discriminate].
Qed.

Lemma active_entries_blank (fields : list (string * json)) :
  (forall k v, In (k, v) fields ->
               v = JNull \/ exists s, v = JStr s /\ is_empty (trim s) = true) ->
  active_entries fields = inr [].
Proof.
  induction fields as [|[k v] rest IH]; intros H; [reflexivity|].
  cbn [active_entries].
  rewrite IH by (intros k' v' Hin; apply (H k' v'); now right).
  destruct (H k v (or_introl eq_refl)) as [->|(s & -> & Hs)]; [reflexivity|].
  cbn [active_value]. rewrite Hs. now rewrite andb_false_r.
Qed.

(** X1: When every value of the filter object is [null] or blank, no WHERE
    clause is built and nothing is bound: the count statement is the bare
    count of the table. *)
Theorem blank_filters_give_no_where :
  forall h text fields tbl,
    is_empty text = false ->
    JSON_parse h text = Some (JObj fields) ->
    (forall k v, In (k, v) fields ->
                 v = JNull \/ exists s, v = JStr s /\ is_empty (trim s) = true) ->
    build_filters h (Some text) = inr (EmptyString, [])
    /\ countQuery_of tbl EmptyString
       = "SELECT COUNT(*) as total FROM " ++ tbl ++ " ".
Proof.
  intros h text fields tbl Htext Hparse Hblank. split; [|reflexivity].
  unfold build_filters. rewrite Htext, Hparse. cbn [Object_entries].
  now rewrite (active_entries_blank fields Hblank).
Qed.

Lemma blank_filters_give_no_where_witness :
  build_filters blank_host (Some "f") = inr (EmptyString, [])
  /\ countQuery_of "users" EmptyString
     = "SELECT COUNT(*) as total FROM " ++ "users" ++ " ".
Proof.
  apply (blank_filters_give_no_where blank_host "f" blank_fields "users").
  - reflexivity.
  - reflexivity.
  - intros k v [E|[E|[E|[]]]]; injection E as <- <-.
    + right. exists "  ". split; reflexivity.
    + left. reflexivity.
    + right. exists EmptyString. split; reflexivity.
Defined.

(** ** The ORDER BY clause *)

Lemma list_ascii_app (a b : string) :
  list_ascii_of_string (a ++ b)
  = (list_ascii_of_string a ++ list_ascii_of_string b)%list.
Proof. induction a as [|c a IH]; simpl; [reflexivity | now rewrite IH]. Qed.

Lemma safe_is_clause_char (s : string) :
  forallb is_safe_char (list_ascii_of_string s) = true ->
  forallb clause_char (list_ascii_of_string s) = true.
Proof.
  induction s as [|c s IH]; [reflexivity|].
  simpl. intros H. apply andb_prop in H as [Hc Hs].
  unfold clause_char at 1. now rewrite Hc, (IH Hs).
Qed.

(** X2: Whatever [sortBy] and [sortDirection] are, the ORDER BY clause consists
    of letters, digits, underscores and spaces only. *)
Theorem orderBy_clause_is_safe :
  forall sortBy sortDirection,
    forallb clause_char
      (list_ascii_of_string (orderByClause_of sortBy sortDirection))
    = true.
Proof.
  intros [s|] d; [|reflexivity].
  unfold orderByClause_of. destruct (is_empty s); [reflexivity|].
  rewrite !list_ascii_app, !forallb_app.
  rewrite (safe_is_clause_char _ (sanitize_safe s)).
  destruct d as [d|]; [destruct (String.eqb d "desc")|]; reflexivity.
Qed.

(** ** Answers and what they leave behind *)

(** X3: A rows request that is answered 400 has reached no backend and has
    changed nothing in the process. *)
Theorem bad_request_touches_nothing :
  forall h req w,
    status (fst (rows_handler h req w)) = 400 ->
    snd (rows_handler h req w) = w.
Proof.
  intros h req w. unfold rows_handler. unfold_effects. cbv zeta.
  repeat (split_match; cbn [fst snd status res_status_json res_failure res_json]);
    intros H; try discriminate H; reflexivity.
Qed.

Lemma bad_request_touches_nothing_witness :
  snd (rows_handler direct_host no_table shop_selected) = shop_selected.
Proof.
  apply (bad_request_touches_nothing direct_host no_table shop_selected).
  reflexivity.
Defined.

Lemma success_has_rows_lemma (h : Host) (req : RowsRequest) (w : World) :
  status (fst (rows_handler h req w)) = 200 ->
  exists first_row rest total pages,
    body (fst (rows_handler h req w))
    = JsonRows (first_row :: rest) total (parseInt (page req)) pages.
Proof.
  unfold rows_handler. unfold_effects. cbv zeta.
  repeat (split_match; cbn [fst snd status body res_status_json res_failure res_json]);
    intros H; try discriminate H; eauto.
Qed.

(** X4: An answer 200 of the rows handler carries at least one row, and its
    [currentPage] is the parsed [page] segment. *)
Theorem success_has_rows :
  forall h req w,
    status (fst (rows_handler h req w)) = 200 ->
    exists first_row rest total pages,
      body (fst (rows_handler h req w))
      = JsonRows (first_row :: rest) total (parseInt (page req)) pages.
Proof. exact success_has_rows_lemma. Qed.

Lemma success_has_rows_witness :
  exists first_row rest total pages,
    body (fst (rows_handler direct_host users_page_1 shop_selected))
    = JsonRows (first_row :: rest) total (parseInt (page users_page_1)) pages.
Proof.
  apply (success_has_rows direct_host users_page_1 shop_selected).
  reflexivity.
Defined.

(** X5: When the count statement throws on the Direct backend, the answer is
    500 with the message of the exception, the data statement is never run,
    and the connection is ended. *)
Theorem count_failure_is_500 :
  forall h req w whereClause filterParams e,
    is_empty (table req) || is_empty (page req) || is_empty (pageSize req)
    = false ->
    build_filters h (Server.filters req) = inr (whereClause, filterParams) ->
    ENV_is_dev h = true ->
    Server.truthy (dbConfig_database w) = true ->
    connect_error h (dbConfig_database w) = None ->
    execute_result h (dbConfig_database w)
      (countQuery_of (table req) whereClause) filterParams = inl e ->
    let c := {| conn_id := next_conn_id w;
                conn_database := dbConfig_database w |} in
    fst (rows_handler h req w)
    = {| status := 500;
         body := JsonError "Failed to fetch table data" (Some (message e)) |}
    /\ added w (snd (rows_handler h req w))
       = [ Ended c;
           Executed c (countQuery_of (table req) whereClause) filterParams;
           Connected c ].
Proof.
  intros h req w whereClause filterParams e Hpath Hbuild Hdev Hdb Hconn Hcount c.
  unfold rows_handler. unfold_effects. cbv zeta.
  rewrite Hpath, Hbuild, Hdev. cbv beta iota zeta.
  rewrite Hdb. cbn [negb]. rewrite Hconn. cbn [conn_database].
  rewrite Hcount. cbn [fst snd]. split; [reflexivity|].
  compute_added. reflexivity.
Qed.

Lemma count_failure_is_500_witness :
  let c := {| conn_id := 1; conn_database := Some "shop" |} in
  fst (rows_handler failing_host users_page_1 shop_selected)
  = {| status := 500;
       body := JsonError "Failed to fetch table data" (Some "Connection lost") |}
  /\ added shop_selected (snd (rows_handler failing_host users_page_1 shop_selected))
     = [ Ended c;
         Executed c (countQuery_of "users" EmptyString) [];
         Connected c ].
Proof.
  apply (count_failure_is_500 failing_host users_page_1 shop_selected
           EmptyString [] (Error "Connection lost")); reflexivity.
Defined.

(** ** The two backends never mix *)

(** X6: With [ENV] other than [dev] no request opens a connection or runs a
    statement on one: all that is sent goes to the metadata server and to
    the remote service. *)
Theorem proxy_never_connects :
  forall h r w,
    ENV_is_dev h = false ->
    open_connections (snd (handle h r w)) = open_connections w
    /\ next_conn_id (snd (handle h r w)) = next_conn_id w
    /\ existsb is_local (added w (snd (handle h r w))) = false.
Proof.
  intros h r w Hdev.
  destruct r as [req|db|]; cbn [handle];
    unfold rows_handler, tableNames_handler, databases_handler;
    unfold_effects; cbv zeta; rewrite Hdev;
    repeat (split_match; cbn [fst snd open_connections next_conn_id]);
    (split; [reflexivity|]); (split; [reflexivity|]);
    compute_added; reflexivity.
Qed.

Lemma proxy_never_connects_witness :
  open_connections (snd (handle proxy_host (GetTableNames "shop") busy_world))
  = open_connections busy_world
  /\ next_conn_id (snd (handle proxy_host (GetTableNames "shop") busy_world))
     = next_conn_id busy_world
  /\ existsb is_local
       (added busy_world
          (snd (handle proxy_host (GetTableNames "shop") busy_world)))
     = false.
Proof.
  apply (proxy_never_connects proxy_host (GetTableNames "shop") busy_world).
  reflexivity.
Defined.

(** X7: With [ENV=dev] no request asks for an identity token or posts to the
    remote service. *)
Theorem direct_never_posts :
  forall h r w,
    ENV_is_dev h = true ->
    existsb is_remote (added w (snd (handle h r w))) = false.
Proof.
  intros h r w Hdev.
  destruct r as [req|db|]; cbn [handle];
    unfold rows_handler, tableNames_handler, databases_handler;
    unfold_effects; cbv zeta; rewrite Hdev;
    repeat (split_match; cbn [fst snd]);
    compute_added; reflexivity.
Qed.

Lemma direct_never_posts_witness :
  existsb is_remote
    (added shop_selected (snd (handle direct_host (GetRows users_page_1) shop_selected)))
  = false.
Proof.
  apply (direct_never_posts direct_host (GetRows users_page_1) shop_selected).
  reflexivity.
Defined.

(** ** anyQuery *)

(** When the identity token cannot be had, [anyQuery] posts nothing and
    rethrows the exception as it is. *)
Theorem anyQuery_posts_only_with_token :
  forall h o w e,
    token_result h = inl e ->
    QueryFunctions.anyQuery h o w = (inl e, log TokenRequested w).
Proof.
  intros h o w e Htoken. unfold_effects. now rewrite Htoken.
Qed.

Lemma anyQuery_posts_only_with_token_witness :
  QueryFunctions.anyQuery direct_host (introspection "SHOW TABLES") shop_selected
  = (inl (Error "metadata server not reachable"),
     log TokenRequested shop_selected).
Proof.
  apply (anyQuery_posts_only_with_token direct_host
           (introspection "SHOW TABLES") shop_selected).
  reflexivity.
Defined.

(** ** Selecting a database *)

Lemma selected_truthy (requests : list Request) (current : option string) :
  Server.truthy current = true ->
  Server.truthy (selected requests current) = true.
Proof.
  revert current. induction requests as [|r rest IH]; intros current H;
    [exact H|].
  destruct r as [req|db|]; cbn [selected]; apply IH; [exact H| |exact H].
  destruct (is_empty db) eqn:E; [exact H|].
  cbn [Server.truthy]. now rewrite E.
Qed.

Lemma rows_handler_finds_database (h : Host) (req : RowsRequest) (w : World) :
  Server.truthy (dbConfig_database w) = true ->
  fst (rows_handler h req w) <> res_status_json 400 "Database not selected".
Proof.
  intros Hsel.
  unfold rows_handler. unfold_effects. cbv zeta.
  repeat (split_match; cbn [fst snd]); try discriminate.
  all: exfalso;
    match goal with
    | H : negb (Server.truthy _) = true |- _ =>
        rewrite Hsel in H; discriminate H
    end.
Qed.

(** X8: A table-names request with a database name selects a database
    whatever its own answer is and whatever requests follow it: no later rows
    request on the Direct backend is refused with [Database not selected]. *)
Theorem selection_survives_failure :
  forall h db requests w req,
    is_empty db = false ->
    fst (rows_handler h req
           (snd (serve h (GetTableNames db :: requests) w)))
    <> res_status_json 400 "Database not selected".
Proof.
  intros h db requests w req Hdb.
  apply rows_handler_finds_database.
  rewrite serve_database. cbn [selected]. rewrite Hdb.
  apply selected_truthy. cbn [Server.truthy]. now rewrite Hdb.
Qed.

Lemma selection_survives_failure_witness :
  fst (rows_handler failing_host users_page_1
         (snd (serve failing_host
                 [GetTableNames "shop"; GetDatabases; GetRows users_page_1;
                  GetTableNames EmptyString]
                 initial_world)))
  <> res_status_json 400 "Database not selected".
Proof.
  apply (selection_survives_failure failing_host "shop"
           [GetDatabases; GetRows users_page_1; GetTableNames EmptyString]
           initial_world users_page_1).
  reflexivity.
Defined.

(** ** The two lists *)

(** X9: A database without tables is answered 404, on either backend: the
    statement has succeeded, with no row. *)
Theorem empty_database_is_404 :
  forall h db w,
    is_empty db = false ->
    (if ENV_is_dev h
     then connect_error h (Some db) = None
          /\ execute_result h (Some db) "SHOW TABLES" [] = inr []
     else (exists token, token_result h = inr token)
          /\ post_result h (proxied "SHOW TABLES") = inr []) ->
    fst (tableNames_handler h db w)
    = res_status_json 404 "No tables found in database".
Proof.
  intros h db w Hdb H.
  unfold tableNames_handler. unfold_effects. rewrite Hdb.
  destruct (ENV_is_dev h); cbv beta iota zeta; cbn [dbConfig_database].
  - destruct H as [Hconn Hexec]. rewrite Hconn. cbn [conn_database].
    now rewrite Hexec.
  - destruct H as [[token Htoken] Hpost]. rewrite Htoken.
    change (QueryFunctions.request_body (introspection "SHOW TABLES"))
      with (proxied "SHOW TABLES").
    now rewrite Hpost.
Qed.

Lemma empty_database_is_404_witness :
  fst (tableNames_handler empty_proxy_host "shop" initial_world)
  = res_status_json 404 "No tables found in database".
Proof.
  apply (empty_database_is_404 empty_proxy_host "shop" initial_world).
  - reflexivity.
  - split; [exists "token"|]; reflexivity.
Defined.

(** A server without databases is answered 404 in the same way. *)
Theorem no_database_is_404 :
  forall h w,
    (if ENV_is_dev h
     then connect_error h (dbConfig_database w) = None
          /\ execute_result h (dbConfig_database w) "SHOW DATABASES" [] = inr []
     else (exists token, token_result h = inr token)
          /\ post_result h (proxied "SHOW DATABASES") = inr []) ->
    fst (databases_handler h w) = res_status_json 404 "No databases found".
Proof.
  intros h w H.
  unfold databases_handler. unfold_effects.
  destruct (ENV_is_dev h); cbv beta iota zeta.
  - destruct H as [Hconn Hexec]. rewrite Hconn. cbn [conn_database].
    now rewrite Hexec.
  - destruct H as [[token Htoken] Hpost]. rewrite Htoken.
    change (QueryFunctions.request_body (introspection "SHOW DATABASES"))
      with (proxied "SHOW DATABASES").
    now rewrite Hpost.
Qed.

Lemma no_database_is_404_witness :
  fst (databases_handler empty_table_host initial_world)
  = res_status_json 404 "No databases found".
Proof.
  apply (no_database_is_404 empty_table_host initial_world).
  split; reflexivity.
Defined.

(** ** Connections over a sequence of requests *)

Lemma handle_closes (h : Host) (r : Request) (w : World) id :
  (forall db sql ps, exists rows, execute_result h db sql ps = inr rows) ->
  In id (open_connections (snd (handle h r w))) ->
  In id (open_connections w).
Proof.
  intros Hok.
  destruct r as [req|db|]; cbn [handle];
    unfold rows_handler, tableNames_handler, databases_handler;
    unfold_effects; cbv zeta;
    repeat (split_match; cbn [fst snd open_connections conn_id]);
    intros H; try exact H; try (apply in_filter_neq in H; exact H).
  all: exfalso;
    match goal with
    | E : execute_result _ ?db ?sql ?ps = inl _ |- _ =>
        destruct (Hok db sql ps) as [rows Hrows];
        rewrite Hrows in E; discriminate E
    end.
Qed.

(** X10: As long as no statement throws, no sequence of requests leaves a
    connection open: what is open at the end was open at the start. *)
Theorem no_leak_when_statements_succeed :
  forall h requests w id,
    (forall db sql ps, exists rows, execute_result h db sql ps = inr rows) ->
    In id (open_connections (snd (serve h requests w))) ->
    In id (open_connections w).
Proof.
  intros h requests w id Hok. revert w.
  induction requests as [|r rest IH]; intros w H; [exact H|].
  cbn [serve] in H.
  destruct (handle h r w) as [answer w1] eqn:E.
  destruct (serve h rest w1) as [answers w2] eqn:E2.
  cbn [snd] in H.
  apply (handle_closes h r w id Hok). rewrite E. cbn [snd].
  apply IH. now rewrite E2.
Qed.

Lemma no_leak_when_statements_succeed_witness :
  In 0%nat (open_connections busy_world).
Proof.
  apply (no_leak_when_statements_succeed direct_host
           [GetTableNames "hr"; GetRows users_page_1; GetDatabases;
            GetRows users_named_al]
           busy_world 0%nat).
  - intros db sql ps. cbn.
    destruct (prefix "SELECT COUNT" sql); eexists; reflexivity.
  - vm_compute. left. reflexivity.
Defined.

Lemma rows_handler_closes_witness :
  In 0%nat (open_connections busy_world).
Proof.
  apply (rows_handler_closes failing_host users_page_1 busy_world 0%nat).
  vm_compute. left. reflexivity.
Defined.

(** ** The Proxy backend and the selected database *)

(** X11: With [ENV] other than [dev] the answer to a rows request does not
    depend on the state of the process: no database has to be selected. *)
Theorem proxy_rows_ignore_selection :
  forall h req w1 w2,
    ENV_is_dev h = false ->
    fst (rows_handler h req w1) = fst (rows_handler h req w2).
Proof.
  intros h req w1 w2 Hdev.
  unfold rows_handler. unfold_effects. cbv zeta. rewrite Hdev.
  repeat (split_match; cbn [fst snd]); try reflexivity; try congruence.
Qed.

Lemma proxy_rows_ignore_selection_witness :
  fst (rows_handler proxy_host users_page_1 initial_world)
  = fst (rows_handler proxy_host users_page_1 shop_selected).
Proof.
  apply (proxy_rows_ignore_selection proxy_host users_page_1
           initial_world shop_selected).
  reflexivity.
Defined.

(** * From the component to the statement *)

Import Wire.

Lemma toString_not_empty (z : Z) : is_empty (toString (Num z)) = false.
Proof.
  pose proof (parseInt_toString z) as P.
  destruct (toString (Num z)); [discriminate P|reflexivity].
Qed.


(** A request that came through a URL has the segments of the fetch. *)
Lemma to_request_fields stringify (f : FetchRequest) (req : RowsRequest) :
  to_request stringify f = Some req ->
  plain_segment (url_table f) = true
  /\ table req = url_table f
  /\ page req = toString (Num (url_page f))
  /\ pageSize req = toString (Num (url_pageSize f))
  /\ sortBy req = option_map fst (url_sort f)
  /\ sortDirection req
     = option_map (fun s => direction_text (snd s)) (url_sort f)
  /\ Server.filters req = option_map stringify (url_filters f).
Proof.
  unfold to_request. intros H.
  destruct (plain_segment (url_table f)); [|discriminate H].
  destruct (Z.abs (url_page f) <? 2 ^ 53); [|discriminate H].
  destruct (Z.abs (url_pageSize f) <? 2 ^ 53); [|discriminate H].
  injection H as <-. repeat split.
Qed.



Lemma trim_nonempty (s : string) :
  is_empty (trim s) = false -> is_empty s = false.
Proof. now destruct s. Qed.

Lemma filter_rules_agree_lemma (fs : list (string * string)) :
  active_entries (map (fun entry => (fst entry, JStr (snd entry))) fs)
  = inr (activeFilters fs).
Proof.
  induction fs as [|[k v] rest IH]; [reflexivity|].
  cbn [map fst snd active_entries active_value activeFilters filter].
  fold (activeFilters rest). rewrite IH.
  destruct (is_empty (trim v)) eqn:E; cbn [negb].
  - now rewrite andb_false_r.
  - now rewrite (trim_nonempty v E).
Qed.

(** X13: The server and the component drop the same filters: for a filter
    object with string values, the entries the handler keeps are the ones
    [fetchTableData] calls active, and for those it builds one condition
    and one bound value each. *)
Theorem filter_rules_agree :
  forall h text fs,
    is_empty text = false ->
    JSON_parse h text = Some (filter_object fs) ->
    build_filters h (Some text)
    = inr (whereClause_of (map condition (activeFilters fs)),
           map filterParam (activeFilters fs)).
Proof.
  intros h text fs Htext Hparse.
  unfold build_filters. rewrite Htext, Hparse.
  unfold filter_object. cbn [Object_entries].
  now rewrite filter_rules_agree_lemma.
Qed.

Lemma activeFilters_idempotent (fs : list (string * string)) :
  activeFilters (activeFilters fs) = activeFilters fs.
Proof.
  unfold activeFilters. induction fs as [|[k v] rest IH]; [reflexivity|].
  cbn [filter snd]. destruct (is_empty (trim v)) eqn:E; cbn [negb]; [exact IH|].
  cbn [filter snd]. rewrite E. cbn [negb]. now rewrite IH.
Qed.

(** What the component sends as [filters] comes back as the conditions of
    the WHERE clause, one per active filter and in the same order, provided
    [JSON.parse] reads what [JSON.stringify] wrote. *)
Theorem client_filters_become_conditions :
  forall h stringify f req fs,
    to_request stringify f = Some req ->
    url_filters f = filters_parameter fs ->
    is_empty (stringify (activeFilters fs)) = false ->
    JSON_parse h (stringify (activeFilters fs))
    = Some (filter_object (activeFilters fs)) ->
    build_filters h (Server.filters req)
    = inr (whereClause_of (map condition (activeFilters fs)),
           map filterParam (activeFilters fs)).
Proof.
  intros h stringify f req fs Hreq Hf Htext Hparse.
  apply to_request_fields in Hreq as (_ & _ & _ & _ & _ & _ & ->).
  rewrite Hf.
  unfold filters_parameter.
  destruct (activeFilters fs) as [|a rest] eqn:E; [reflexivity|].
  cbn [option_map]. unfold build_filters.
  rewrite Htext, Hparse. unfold filter_object. cbn [Object_entries].
  rewrite filter_rules_agree_lemma, <- E, activeFilters_idempotent.
  reflexivity.
Qed.

Lemma filter_rules_agree_witness :
  build_filters mixed_host (Some "f")
  = inr (whereClause_of (map condition (activeFilters mixed_filters)),
         map filterParam (activeFilters mixed_filters)).
Proof.
  apply (filter_rules_agree mixed_host "f" mixed_filters); reflexivity.
Defined.

Example mixed_filters_where :
  build_filters mixed_host (Some "f")
  = inr ("WHERE name LIKE '%al%' AND age LIKE '%4%'",
         [PStr "%al%"; PStr "%4%"]).
Proof. reflexivity. Qed.

Lemma client_filters_become_conditions_witness :
  build_filters direct_host (Server.filters second_page_request)
  = inr (whereClause_of (map condition (activeFilters [("name", "al")])),
         map filterParam (activeFilters [("name", "al")])).
Proof.
  apply (client_filters_become_conditions direct_host stringify_name_al
           second_page_fetch second_page_request [("name", "al")]);
    reflexivity.
Defined.

(** The events of a rows request on the Direct backend whose count statement
    succeeds: a connection, the count statement, the data statement, the end
    of the connection. *)
Lemma rows_handler_direct_trace (h : Host) (req : RowsRequest) (w : World)
    db whereClause filterParams totalCount :
  is_empty (table req) || is_empty (page req) || is_empty (pageSize req)
  = false ->
  ENV_is_dev h = true ->
  dbConfig_database w = Some db ->
  is_empty db = false ->
  connect_error h (Some db) = None ->
  build_filters h (Server.filters req) = inr (whereClause, filterParams) ->
  execute_result h (Some db) (countQuery_of (table req) whereClause)
    filterParams = inr totalCount ->
  let conn := {| conn_id := next_conn_id w; conn_database := Some db |} in
  let limit := parseInt (pageSize req) in
  let offset := num_mul (num_sub (parseInt (page req)) (Num 1)) limit in
  added w (snd (rows_handler h req w))
  = [Ended conn;
     Executed conn
       (dataQuery_of (table req) whereClause
          (orderByClause_of (Server.sortBy req) (Server.sortDirection req))
          limit offset)
       (filterParams ++ [PNum limit; PNum offset]);
     Executed conn (countQuery_of (table req) whereClause) filterParams;
     Connected conn].
Proof.
  intros Hpath Hdev Hdb Hdbname Hconn Hfilters Hcount.
  unfold rows_handler. rewrite Hpath, Hfilters. cbv zeta. rewrite Hdev.
  unfold_effects. cbv beta zeta. rewrite Hdb. cbn [Server.truthy].
  rewrite Hdbname. cbn [negb]. cbv beta iota zeta. rewrite !Hdb, Hconn.
  cbv beta iota zeta. cbn [conn_database conn_id]. rewrite Hcount.
  repeat (split_match; cbn [fst snd]); compute_added; reflexivity.
Qed.

(** X14: The sort of a fetch becomes the ORDER BY clause of the data
    statement that runs: the column, stripped of unsafe characters, with
    [ASC] for [asc] and [DESC] for [desc]; a fetch without sort gives no
    clause.  This is for a fetch whose table name a path leaves as it is, on
    the Direct backend once the count statement has succeeded. *)
Theorem client_sort_becomes_order_by :
  forall h stringify f req w db whereClause filterParams totalCount,
    to_request stringify f = Some req ->
    ENV_is_dev h = true ->
    dbConfig_database w = Some db ->
    is_empty db = false ->
    connect_error h (Some db) = None ->
    build_filters h (Server.filters req) = inr (whereClause, filterParams) ->
    execute_result h (Some db) (countQuery_of (url_table f) whereClause)
      filterParams = inr totalCount ->
    let orderByClause :=
      match url_sort f with
      | Some (k, d) =>
          if is_empty k then EmptyString
          else "ORDER BY " ++ sanitize k ++ " "
               ++ match d with asc => "ASC" | desc => "DESC" end
      | None => EmptyString
      end in
    orderByClause_of (Server.sortBy req) (Server.sortDirection req)
    = orderByClause
    /\ exists limit offset ps,
         In (Executed
               {| conn_id := next_conn_id w; conn_database := Some db |}
               (dataQuery_of (url_table f) whereClause orderByClause
                  limit offset) ps)
            (added w (snd (rows_handler h req w))).
Proof.
  intros h stringify f req w db whereClause filterParams totalCount
    Hreq Hdev Hdb Hdbname Hconn Hfilters Hcount orderByClause.
  pose proof (to_request_fields stringify f req Hreq)
    as (Hplain & Htable & Hpage & Hsize & Hsort & Hdir & _).
  assert (orderByClause_of (Server.sortBy req) (Server.sortDirection req)
          = orderByClause) as Hclause.
  { rewrite Hsort, Hdir. unfold orderByClause.
    destruct (url_sort f) as [[k d]|]; [|reflexivity].
    cbn [option_map fst snd orderByClause_of].
    destruct (is_empty k); [reflexivity|]. now destruct d. }
  split; [exact Hclause|].
  assert (is_empty (table req) || is_empty (page req)
          || is_empty (pageSize req) = false) as Hpath.
  { rewrite Htable, Hpage, Hsize, !toString_not_empty.
    unfold plain_segment in Hplain. apply andb_prop in Hplain as [Ht _].
    now destruct (is_empty (url_table f)). }
  rewrite <- Htable in Hcount.
  pose proof (rows_handler_direct_trace h req w db whereClause filterParams
                totalCount Hpath Hdev Hdb Hdbname Hconn Hfilters Hcount)
    as Htrace.
  cbv zeta in Htrace. rewrite Htrace, Hclause, Htable.
  do 3 eexists. right. left. reflexivity.
Qed.

Lemma client_sort_becomes_order_by_witness :
  orderByClause_of (Server.sortBy second_page_request)
    (Server.sortDirection second_page_request)
  = "ORDER BY name DESC"
  /\ exists limit offset ps,
       In (Executed {| conn_id := 1%nat; conn_database := Some "shop" |}
             (dataQuery_of "users" "WHERE name LIKE '%al%'"
                "ORDER BY name DESC" limit offset) ps)
          (added shop_selected
             (snd (rows_handler direct_host second_page_request
                     shop_selected))).
Proof.
  exact (client_sort_becomes_order_by direct_host stringify_name_al
           second_page_fetch second_page_request shop_selected "shop"
           "WHERE name LIKE '%al%'" [PStr "%al%"] count_41
           eq_refl eq_refl eq_refl eq_refl eq_refl eq_refl eq_refl).
Defined.

(** * From the answer to the display *)

Lemma rows_handler_statuses (h : Host) (req : RowsRequest) (w : World) :
  let r := fst (rows_handler h req w) in
  status r = 200 \/ status r = 400 \/ status r = 404 \/ status r = 500.
Proof.
  unfold rows_handler. unfold_effects. cbv zeta.
  repeat (split_match; cbn [fst snd status res_status_json res_failure res_json]);
    auto.
Qed.

(** X15: Every answer of the rows handler other than 200 (a bad request, an
    empty result, a failure) leaves the grid empty and the counts at 0, ends
    the loading, and keeps the header, the page, the sort and the filters
    as they were. *)
Theorem refused_fetch_empties_the_view :
  forall h req w v,
    status (fst (rows_handler h req w)) <> 200 ->
    exists outcome,
      to_outcome (fst (rows_handler h req w)) = Some outcome
      /\ let v' := fetch_settled outcome v in
         tableRows v' = []
         /\ (totalRows v', totalPages v') = (0, 0)
         /\ rowsLoading v' = false
         /\ (tableColumns v', currentPage v', sortConfig v', Navigator.filters v',
             openTable v')
            = (tableColumns v, currentPage v, sortConfig v, Navigator.filters v,
               openTable v).
Proof.
  intros h req w v Hstatus. exists Failed.
  pose proof (rows_handler_statuses h req w) as Hs. cbv zeta in Hs.
  unfold to_outcome.
  destruct Hs as [Hs|[Hs|[Hs|Hs]]]; [contradiction| | |];
    rewrite Hs; repeat split.
Qed.

Lemma refused_fetch_empties_the_view_witness :
  exists outcome,
    to_outcome (fst (rows_handler empty_table_host users_page_1 shop_selected))
    = Some outcome
    /\ let v' := fetch_settled outcome initial_view in
       tableRows v' = []
       /\ (totalRows v', totalPages v') = (0, 0)
       /\ rowsLoading v' = false
       /\ (tableColumns v', currentPage v', sortConfig v', Navigator.filters v',
           openTable v')
          = (tableColumns initial_view, currentPage initial_view,
             sortConfig initial_view, Navigator.filters initial_view,
             openTable initial_view).
Proof.
  apply (refused_fetch_empties_the_view empty_table_host users_page_1
           shop_selected initial_view).
  vm_compute. discriminate.
Defined.

(** X16: After an answer 200 with a numeric count the grid holds the rows of the
    answer, which are not empty, the header is the key set of the first
    row, and the counts are those of the answer. *)
Theorem answer_is_displayed :
  forall h req w v rows t cur pages,
    fst (rows_handler h req w)
    = res_json (JsonRows rows (Some (CNum t)) cur pages) ->
    exists first_row rest,
      rows = first_row :: rest
      /\ to_outcome (fst (rows_handler h req w))
         = Some (Data (Some rows) (Some t) (sent_number pages))
      /\ let v' :=
           fetch_settled (Data (Some rows) (Some t) (sent_number pages)) v in
         tableRows v' = rows
         /\ tableColumns v' = Object_keys first_row
         /\ totalRows v' = t
         /\ totalPages v' = or_zero (sent_number pages)
         /\ rowsLoading v' = false.
Proof.
  intros h req w v rows t cur pages H.
  assert (Hstatus : status (fst (rows_handler h req w)) = 200)
    by now rewrite H.
  destruct (success_has_rows_lemma h req w Hstatus)
    as (first_row & rest & total & pages' & Hbody).
  rewrite H in Hbody. cbn [body res_json] in Hbody.
  injection Hbody as -> _ _ _.
  exists first_row, rest. split; [reflexivity|].
  rewrite H. repeat split.
Qed.

Lemma answer_is_displayed_witness :
  exists first_row rest,
    [one_row] = first_row :: rest
    /\ to_outcome (fst (rows_handler direct_host users_page_1 shop_selected))
       = Some (Data (Some [one_row]) (Some 41) (sent_number (Num 3)))
    /\ let v' :=
         fetch_settled (Data (Some [one_row]) (Some 41) (sent_number (Num 3)))
           initial_view in
       tableRows v' = [one_row]
       /\ tableColumns v' = Object_keys first_row
       /\ totalRows v' = 41
       /\ totalPages v' = or_zero (sent_number (Num 3))
       /\ rowsLoading v' = false.
Proof.
  apply (answer_is_displayed direct_host users_page_1 shop_selected
           initial_view [one_row] 41 (Num 1) (Num 3)).
  reflexivity.
Defined.

(** * Further properties of the table view *)

Lemma handleSort_sortConfig (v : ViewState) (k : string) (c : Client) :
  sortConfig (view (handleSort v k c))
  = Some {| key := k; direction := sort_direction v k |}.
Proof.
  unfold handleSort.
  destruct (openTable v) as [t|]; [destruct (is_empty t)|]; reflexivity.
Qed.

(** X17: A second click on the same header flips the direction, and a click on
    another header starts with [asc]. *)
Theorem sort_toggle :
  forall c k k',
    String.eqb k k' = false ->
    let c1 := handleSort (view c) k c in
    let d := sort_direction (view c) k in
    sortConfig (view c1) = Some {| key := k; direction := d |}
    /\ sortConfig (view (handleSort (view c1) k c1))
       = Some {| key := k; direction := flip d |}
    /\ sortConfig (view (handleSort (view c1) k' c1))
       = Some {| key := k'; direction := asc |}.
Proof.
  intros c k k' Hk c1 d. subst c1 d.
  rewrite !handleSort_sortConfig. split; [reflexivity|].
  unfold sort_direction at 1 3. rewrite handleSort_sortConfig.
  cbn [key direction]. rewrite String.eqb_refl, Hk.
  split; [|reflexivity]. now destruct (sort_direction (view c) k).
Qed.

Lemma sort_toggle_witness :
  let c1 := handleSort (view last_page_client) "name" last_page_client in
  let d := sort_direction (view last_page_client) "name" in
  sortConfig (view c1) = Some {| key := "name"; direction := d |}
  /\ sortConfig (view (handleSort (view c1) "name" c1))
     = Some {| key := "name"; direction := flip d |}
  /\ sortConfig (view (handleSort (view c1) "id" c1))
     = Some {| key := "id"; direction := asc |}.
Proof.
  apply (sort_toggle last_page_client "name" "id"). reflexivity.
Defined.

(** X18: A click on the open table closes it: the grid, the header, the sort and
    the filters are emptied and the page is 1 again; nothing is fetched, and
    a pending timer stays pending. *)
Theorem close_table_resets :
  forall c t,
    is_open (view c) t = true ->
    let c' := step c (ClickTable t) in
    (openTable (view c'), tableRows (view c'), tableColumns (view c'),
     currentPage (view c'), sortConfig (view c'), Navigator.filters (view c'))
    = (None, [], [], 1, None, [])
    /\ Navigator.issued c' = Navigator.issued c
    /\ timers c' = timers c.
Proof.
  intros c t Hopen c'. subst c'. cbn [step]. unfold handleTableClick.
  unfold is_open in Hopen. rewrite Hopen. repeat split.
Qed.

Lemma close_table_resets_witness :
  let c' := step last_page_client (ClickTable "users") in
  (openTable (view c'), tableRows (view c'), tableColumns (view c'),
   currentPage (view c'), sortConfig (view c'), Navigator.filters (view c'))
  = (None, [], [], 1, None, [])
  /\ Navigator.issued c' = Navigator.issued last_page_client
  /\ timers c' = timers last_page_client.
Proof.
  apply (close_table_resets last_page_client "users"). reflexivity.
Defined.

(** X19: A click on a table that is not the open one opens it with page 1, no
    sort and no filter, and fetches its first page; the fetch carries the
    filters of the state before the click, and the rows and the header of
    the table shown before stay until an answer arrives. *)
Theorem open_table_sends_old_filters :
  forall c t,
    is_open (view c) t = false ->
    let c' := step c (ClickTable t) in
    (openTable (view c'), currentPage (view c'), sortConfig (view c'),
     Navigator.filters (view c'), rowsLoading (view c'))
    = (Some t, 1, None, [], true)
    /\ (tableRows (view c'), tableColumns (view c'))
       = (tableRows (view c), tableColumns (view c))
    /\ Navigator.issued c'
       = (Navigator.next_fetch_id c,
          {| url_table := t; url_page := 1; url_pageSize := 20;
             url_sort := None;
             url_filters := filters_parameter (Navigator.filters (view c)) |})
         :: Navigator.issued c.
Proof.
  intros c t Hopen c'. subst c'. cbn [step]. unfold handleTableClick.
  unfold is_open in Hopen. rewrite Hopen. repeat split.
Qed.

Lemma open_table_sends_old_filters_witness :
  let c' := step last_page_client (ClickTable "orders") in
  (openTable (view c'), currentPage (view c'), sortConfig (view c'),
   Navigator.filters (view c'), rowsLoading (view c'))
  = (Some "orders", 1, None, [], true)
  /\ (tableRows (view c'), tableColumns (view c'))
     = (tableRows (view last_page_client), tableColumns (view last_page_client))
  /\ Navigator.issued c'
     = (Navigator.next_fetch_id last_page_client,
        {| url_table := "orders"; url_page := 1; url_pageSize := 20;
           url_sort := None;
           url_filters :=
             filters_parameter (Navigator.filters (view last_page_client)) |})
       :: Navigator.issued last_page_client.
Proof.
  apply (open_table_sends_old_filters last_page_client "orders"). reflexivity.
Defined.

Example orders_fetched_with_the_filter_of_users :
  option_map (fun f => url_filters (snd f))
    (hd_error (Navigator.issued (step last_page_client (ClickTable "orders"))))
  = Some (Some [("name", "al")]).
Proof. reflexivity. Qed.

(** X20: A page change sets the page and fetches it with the sort and the
    filters of the state, which it leaves as they are. *)
Theorem page_change_keeps_sort_and_filters :
  forall c t n,
    openTable (view c) = Some t ->
    is_empty t = false ->
    let c' := handlePageChange (view c) n c in
    currentPage (view c') = n
    /\ (sortConfig (view c'), Navigator.filters (view c'), openTable (view c'),
        tableRows (view c'), tableColumns (view c'))
       = (sortConfig (view c), Navigator.filters (view c), openTable (view c),
          tableRows (view c), tableColumns (view c))
    /\ Navigator.issued c'
       = (Navigator.next_fetch_id c,
          {| url_table := t; url_page := n; url_pageSize := 20;
             url_sort := sort_parameter (sortConfig (view c));
             url_filters := filters_parameter (Navigator.filters (view c)) |})
         :: Navigator.issued c.
Proof.
  intros c t n Ht Hne c'. subst c'. unfold handlePageChange.
  rewrite Ht, Hne. unfold fetchTableData, sort_key, sort_dir, sort_parameter.
  destruct (sortConfig (view c)) as [[k d]|] eqn:E; cbn; rewrite ?E;
    cbn; try destruct (is_empty k); repeat split; now rewrite Ht.
Qed.

Lemma page_change_keeps_sort_and_filters_witness :
  let c' := handlePageChange (view last_page_client) 2 last_page_client in
  currentPage (view c') = 2
  /\ (sortConfig (view c'), Navigator.filters (view c'), openTable (view c'),
      tableRows (view c'), tableColumns (view c'))
     = (sortConfig (view last_page_client),
        Navigator.filters (view last_page_client),
        openTable (view last_page_client),
        tableRows (view last_page_client),
        tableColumns (view last_page_client))
  /\ Navigator.issued c'
     = (Navigator.next_fetch_id last_page_client,
        {| url_table := "users"; url_page := 2; url_pageSize := 20;
           url_sort := sort_parameter (sortConfig (view last_page_client));
           url_filters :=
             filters_parameter (Navigator.filters (view last_page_client)) |})
       :: Navigator.issued last_page_client.
Proof.
  apply (page_change_keeps_sort_and_filters last_page_client "users" 2);
    reflexivity.
Defined.

(** ** Every fetch the component issues *)

Lemma activeFilters_not_blank (fs : list (string * string)) :
  Forall (fun entry => is_empty (trim (snd entry)) = false) (activeFilters fs).
Proof.
  apply Forall_forall. intros entry H. apply filter_In in H as [_ H].
  now destruct (is_empty (trim (snd entry))).
Qed.

Lemma fetchTableData_ok render t pg sb sd (c : Client) :
  1 <= pg -> fetches_ok c -> fetches_ok (fetchTableData render t pg sb sd c).
Proof.
  intros Hpg [Hpage Hall]. split; [exact Hpage|].
  unfold fetchTableData, send. cbn [Navigator.issued update].
  constructor; [|exact Hall].
  cbn [snd]. unfold well_formed_fetch. cbn [url_page url_pageSize url_filters].
  split; [exact Hpg|]. split; [reflexivity|].
  destruct (activeFilters (Navigator.filters render)) as [|a rest] eqn:E;
    [exact I|].
  split; [discriminate|]. rewrite <- E. apply activeFilters_not_blank.
Qed.

Lemma update_ok (f : ViewState -> ViewState) (c : Client) :
  1 <= currentPage (f (view c)) -> fetches_ok c -> fetches_ok (update f c).
Proof. intros H [_ Hall]. split; [exact H | exact Hall]. Qed.

Lemma debounced_ok render (c : Client) :
  fetches_ok c -> fetches_ok (debounced render c).
Proof.
  intros H. unfold debounced.
  assert (fetches_ok (update (setCurrentPage 1) c)) as H1
      by (apply update_ok; [cbn; lia | exact H]).
  destruct (openTable render) as [t|]; [destruct (is_empty t)|]; try exact H1.
  apply fetchTableData_ok; [lia | exact H1].
Qed.

Lemma clearTimeout_ok id (c : Client) :
  fetches_ok c -> fetches_ok (clearTimeout id c).
Proof. intros H. exact H. Qed.

Lemma fire_all_ok (l : list Timer) (c : Client) :
  fetches_ok c -> fetches_ok (fold_left fire l c).
Proof.
  revert c. induction l as [|t l IH]; intros c H; [exact H|].
  cbn [fold_left]. apply IH. unfold fire.
  apply debounced_ok, clearTimeout_ok, H.
Qed.

Lemma handleFilterChange_view render k value (c : Client) :
  view (handleFilterChange render k value c)
  = setDebounceTimeout (Some (next_timer_id c))
      (setFilters (assign k value) (view c))
  /\ Navigator.issued (handleFilterChange render k value c) = Navigator.issued c.
Proof.
  unfold handleFilterChange.
  destruct (debounceTimeout render) as [id|]; [destruct (Nat.eqb id 0)|];
    split; reflexivity.
Qed.

Lemma step_ok (c : Client) (e : Navigator.Event) :
  fetches_ok c -> fetches_ok (step c e).
Proof.
  intros H. pose proof H as [Hpage Hall].
  destruct e as [t|k|k value| | |dt|id r]; cbn [step].
  - unfold handleTableClick.
    destruct (match openTable (view c) with
              | Some t0 => String.eqb t0 t
              | None => false
              end).
    + apply update_ok; [cbn; lia | exact H].
    + apply fetchTableData_ok; [lia|]. apply update_ok; [cbn; lia | exact H].
  - destruct (header_shown (view c) k); [|exact H].
    unfold handleSort.
    assert (fetches_ok
              (update (setSortConfig
                         (Some {| key := k;
                                  direction := sort_direction (view c) k |})) c))
      as H1 by (apply update_ok; [exact Hpage | exact H]).
    destruct (openTable (view c)) as [t|]; [destruct (is_empty t)|];
      try exact H1.
    apply fetchTableData_ok; [exact Hpage | exact H1].
  - destruct (header_shown (view c) k); [|exact H].
    destruct (handleFilterChange_view (view c) k value c) as [Hv Hi].
    split; [rewrite Hv; exact Hpage | rewrite Hi; exact Hall].
  - destruct (pager_shown (view c)
              && negb ((currentPage (view c) =? 1) || rowsLoading (view c)))
      eqn:G; [|exact H].
    apply andb_prop in G as [_ G]. apply negb_true_iff, orb_false_iff in G.
    destruct G as [G _]. apply Z.eqb_neq in G.
    unfold handlePageChange.
    assert (fetches_ok (update (setCurrentPage (currentPage (view c) - 1)) c))
      as H1 by (apply update_ok; [cbn; lia | exact H]).
    destruct (openTable (view c)) as [t|]; [destruct (is_empty t)|];
      try exact H1.
    apply fetchTableData_ok; [lia | exact H1].
  - destruct (pager_shown (view c)
              && negb ((currentPage (view c) =? totalPages (view c))
                       || rowsLoading (view c))); [|exact H].
    unfold handlePageChange.
    assert (fetches_ok (update (setCurrentPage (currentPage (view c) + 1)) c))
      as H1 by (apply update_ok; [cbn; lia | exact H]).
    destruct (openTable (view c)) as [t|]; [destruct (is_empty t)|];
      try exact H1.
    apply fetchTableData_ok; [lia | exact H1].
  - destruct (0 <=? dt); [|exact H].
    unfold elapse. apply fire_all_ok. exact H.
  - unfold settle.
    destruct (existsb (Nat.eqb id) (Navigator.in_flight c)); [|exact H].
    split; [|exact Hall].
    cbn [view]. destruct r as [[[|first_row rest]|] ? ?|]; exact Hpage.
Qed.

(** X21: Whatever happens to the component, the current page stays at 1 or
    above, and every fetch it has issued asks for a page from 1 on with 20
    rows a page and names no blank filter. *)
Theorem fetches_are_well_formed :
  forall events,
    let c := Navigator.run initial_client events in
    1 <= currentPage (view c)
    /\ Forall (fun f => well_formed_fetch (snd f)) (Navigator.issued c).
Proof.
  intros events. cbv zeta. change (fetches_ok (Navigator.run initial_client events)).
  assert (fetches_ok initial_client) as H0
      by (split; [cbn; lia | constructor]).
  revert H0. generalize initial_client.
  induction events as [|e rest IH]; intros c H; [exact H|].
  cbn [Navigator.run fold_left]. apply IH, step_ok, H.
Qed.

(** ** What is on display *)

Import Render.

Lemma lookup_assign_same (k value : string) (fs : list (string * string)) :
  lookup k (assign k value fs) = Some value.
Proof.
  induction fs as [|[k' v'] rest IH]; cbn [assign lookup].
  - now rewrite String.eqb_refl.
  - destruct (String.eqb k' k) eqn:E; cbn [lookup].
    + now rewrite String.eqb_refl.
    + now rewrite E.
Qed.

Lemma lookup_assign_other (k other value : string) (fs : list (string * string)) :
  String.eqb k other = false ->
  lookup other (assign k value fs) = lookup other fs.
Proof.
  intros Hk. induction fs as [|[k' v'] rest IH]; cbn [assign lookup].
  - now rewrite Hk.
  - destruct (String.eqb k' k) eqn:E; cbn [lookup].
    + apply String.eqb_eq in E. subst k'. now rewrite Hk.
    + now rewrite IH.
Qed.

(** X22: A keystroke in the filter input of a column shows in that input at
    once and in no other; it fetches nothing and leaves the page as it
    is. *)
Theorem keystroke_shows_in_input :
  forall c column other value,
    header_shown (view c) column = true ->
    String.eqb column other = false ->
    let c' := step c (TypeFilter column value) in
    input_value (view c') column = value
    /\ input_value (view c') other = input_value (view c) other
    /\ Navigator.issued c' = Navigator.issued c
    /\ currentPage (view c') = currentPage (view c).
Proof.
  intros c column other value Hshown Hother c'. subst c'.
  cbn [step]. rewrite Hshown.
  destruct (handleFilterChange_view (view c) column value c) as [Hv Hi].
  rewrite Hv, Hi. unfold input_value. cbn [Navigator.filters setDebounceTimeout setFilters].
  rewrite lookup_assign_same, (lookup_assign_other _ _ _ _ Hother).
  repeat split.
Qed.

Lemma keystroke_shows_in_input_witness :
  let c' := step last_page_client (TypeFilter "id" "7") in
  input_value (view c') "id" = "7"
  /\ input_value (view c') "name" = input_value (view last_page_client) "name"
  /\ Navigator.issued c' = Navigator.issued last_page_client
  /\ currentPage (view c') = currentPage (view last_page_client).
Proof.
  apply (keystroke_shows_in_input last_page_client "id" "name" "7");
    reflexivity.
Defined.

(** X23: On a page within the page count that the server computes, the line
    [Showing a to b of n rows] names a range that is not empty, lies within
    the rows, and has at most 20 rows. *)
Theorem showing_range_within_bounds :
  forall v,
    1 <= currentPage v <= totalPages v ->
    is_ceiling (totalRows v) rowsPerPage (totalPages v) ->
    let '(a, b, n) := showing v in
    1 <= a <= b /\ b <= n /\ b - a + 1 <= rowsPerPage
    /\ a = (currentPage v - 1) * rowsPerPage + 1.
Proof.
  intros v Hpage Hceil. unfold showing, is_ceiling, rowsPerPage in *.
  nia.
Qed.

Lemma showing_range_within_bounds_witness :
  let '(a, b, n) := showing last_page_view in
  1 <= a <= b /\ b <= n /\ b - a + 1 <= rowsPerPage
  /\ a = (currentPage last_page_view - 1) * rowsPerPage + 1.
Proof.
  apply (showing_range_within_bounds last_page_view).
  - cbn. lia.
  - unfold is_ceiling. cbn. lia.
Defined.

Example showing_last_page : showing last_page_view = (41, 41, 41).
Proof. reflexivity. Qed.

Example showing_nothing : showing initial_view = (1, 0, 0).
Proof. reflexivity. Qed.

(** X24: The grid has 20 rows while rows load and one row per table row
    otherwise; every row has one cell per column, and the single cell [No
    data available] appears only when no column is known. *)
Theorem grid_shape :
  forall v,
    List.length (grid v)
    = (if rowsLoading v then 20%nat else List.length (tableRows v))
    /\ Forall (fun g =>
                 match g with
                 | Cells texts =>
                     List.length texts = List.length (tableColumns v)
                 | NoDataAvailable =>
                     tableColumns v = [] /\ rowsLoading v = false
                 end)
         (grid v).
Proof.
  intros v. unfold grid. destruct (rowsLoading v).
  - split; [apply repeat_length|].
    apply Forall_forall. intros g H. apply repeat_spec in H. subst g.
    apply length_map.
  - split; [apply length_map|].
    apply Forall_forall. intros g H. apply in_map_iff in H as (r & <- & _).
    destruct (tableColumns v) as [|col cols]; [split; reflexivity|].
    apply length_map.
Qed.

Lemma get_own_keys (r : row) :
  NoDup (Object_keys r) ->
  map (fun column => get column r) (Object_keys r)
  = map (fun kv => Some (snd kv)) r.
Proof.
  unfold Object_keys. induction r as [|[k v] rest IH]; intros Hnd;
    [reflexivity|].
  cbn [map fst snd]. inversion Hnd as [|? ? Hnotin Hrest]; subst.
  cbn [get]. rewrite String.eqb_refl. f_equal.
  rewrite <- (IH Hrest). apply map_ext_in. intros column Hin.
  cbn [get]. destruct (String.eqb_spec k column) as [->|_];
    [contradiction | reflexivity].
Qed.

(** X25: After an answer with rows, the first row of the grid shows every value
    of the first row of the answer, in the order of its columns. *)
Theorem first_row_is_displayed :
  forall first_row rest totalCount pages v,
    first_row <> [] ->
    NoDup (Object_keys first_row) ->
    hd_error
      (grid (fetch_settled (Data (Some (first_row :: rest)) totalCount pages) v))
    = Some (Cells (map (fun kv => cell_text (Some (snd kv))) first_row)).
Proof.
  intros first_row rest totalCount pages v Hne Hnd.
  assert (Hrow :
            map (fun kv => cell_text (Some (snd kv))) first_row
            = map (fun column => cell_text (get column first_row))
                (Object_keys first_row)).
  { rewrite <- (map_map (fun column => get column first_row) cell_text).
    rewrite (get_own_keys first_row Hnd), map_map. reflexivity. }
  rewrite Hrow.
  destruct first_row as [|[k value] others]; [now elim Hne | reflexivity].
Qed.

Lemma first_row_is_displayed_witness :
  hd_error
    (grid (fetch_settled (Data (Some [one_row]) (Some 41) (Some 3)) initial_view))
  = Some (Cells (map (fun kv => cell_text (Some (snd kv))) one_row)).
Proof.
  apply (first_row_is_displayed one_row [] (Some 41) (Some 3) initial_view).
  - discriminate.
  - repeat constructor; cbn; intuition discriminate.
Defined.

(** ** A pending debounce and a closed table *)

(** X26: Closing the table does not cancel the timer of a filter edit: when the
    delay has passed, the first page of the closed table is fetched, with
    the sort and the filters of the state before the edit. *)
Theorem closing_keeps_the_debounce :
  forall c t column value,
    debounce_ready c ->
    openTable (view c) = Some t ->
    is_empty t = false ->
    mem column (tableColumns (view c)) = true ->
    let c' :=
      Navigator.run c [TypeFilter column value; ClickTable t; Elapse 300] in
    openTable (view c') = None
    /\ Navigator.issued c'
       = (Navigator.next_fetch_id c,
          {| url_table := t; url_page := 1; url_pageSize := 20;
             url_sort := sort_parameter (sortConfig (view c));
             url_filters := filters_parameter (Navigator.filters (view c)) |})
         :: Navigator.issued c.
Proof.
  intros c t column value Hready Ht Hne Hcol c'. subst c'.
  assert (Hshown : header_shown (view c) column = true)
    by (unfold header_shown; now rewrite Ht).
  change (Navigator.run c [TypeFilter column value; ClickTable t; Elapse 300])
    with (step (step (step c (TypeFilter column value)) (ClickTable t))
            (Elapse 300)).
  rewrite (keystroke_sets_one_timer c column value Hready Hshown).
  cbn [step]. unfold handleTableClick.
  cbn [view openTable setDebounceTimeout setFilters]. rewrite Ht.
  rewrite String.eqb_refl.
  match goal with
  | |- context [if 0 <=? 300 then elapse 300 ?c0 else _] =>
      change (if 0 <=? 300 then elapse 300 c0 else c0)
        with (step c0 (Elapse 300))
  end.
  erewrite wait_fires_the_timer; [|reflexivity|lia|cbn; lia].
  cbn [render update view clock timers next_timer_id Navigator.issued
       Navigator.in_flight Navigator.next_fetch_id].
  unfold debounced. rewrite Ht, Hne.
  unfold fetchTableData, sort_key, sort_dir, sort_parameter, filters_parameter.
  destruct (sortConfig (view c)) as [[k d]|]; cbn;
    try destruct (is_empty k); split; reflexivity.
Qed.

Lemma closing_keeps_the_debounce_witness :
  let c' :=
    Navigator.run last_page_client
      [TypeFilter "name" "ali"; ClickTable "users"; Elapse 300] in
  openTable (view c') = None
  /\ Navigator.issued c'
     = (Navigator.next_fetch_id last_page_client,
        {| url_table := "users"; url_page := 1; url_pageSize := 20;
           url_sort := sort_parameter (sortConfig (view last_page_client));
           url_filters :=
             filters_parameter (Navigator.filters (view last_page_client)) |})
       :: Navigator.issued last_page_client.
Proof.
  apply (closing_keeps_the_debounce last_page_client "users" "name" "ali").
  - split; [discriminate | exact I].
  - reflexivity.
  - reflexivity.
  - reflexivity.
Defined.

(** * The database and table lists *)

Lemma truthy_not_null (n : Picker.name) :
  Picker.truthy n = true -> Picker.same_name (Some CNull) n = false.
Proof. destruct n as [[| |]|]; intros H; try discriminate H; reflexivity. Qed.

(** X27: When the list of databases arrives, the first database is selected and
    its tables are fetched, with the loading flag raised. *)
Theorem databases_loaded_selects_first :
  forall data first_name others,
    Picker.names_of data = first_name :: others ->
    Picker.truthy first_name = true ->
    let c := Picker.step Picker.mounted (Picker.DatabasesSettled (Picker.Rows data)) in
    Picker.state c
    = {| Picker.databases := first_name :: others;
         Picker.selectedDb := first_name;
         Picker.tables := [];
         Picker.loading := true |}
    /\ Picker.issued c = [(0%nat, first_name)]
    /\ Picker.in_flight c = [0%nat].
Proof.
  intros data first_name others Hnames Htruthy c. subst c.
  cbn [Picker.step]. unfold Picker.databases_settled, Picker.mounted.
  cbn [Picker.databases_pending]. rewrite Hnames. cbv beta iota zeta.
  unfold Picker.setSelectedDb, Picker.initial_state.
  cbn [Picker.state Picker.selectedDb].
  rewrite (truthy_not_null _ Htruthy). unfold Picker.tables_effect.
  cbn [Picker.state Picker.selectedDb]. rewrite Htruthy.
  repeat split.
Qed.

Lemma databases_loaded_selects_first_witness :
  let c :=
    Picker.step Picker.mounted (Picker.DatabasesSettled (Picker.Rows two_databases)) in
  Picker.state c
  = {| Picker.databases := [Some (CStr "shop"); Some (CStr "hr")];
       Picker.selectedDb := Some (CStr "shop");
       Picker.tables := [];
       Picker.loading := true |}
  /\ Picker.issued c = [(0%nat, Some (CStr "shop"))]
  /\ Picker.in_flight c = [0%nat].
Proof.
  apply (databases_loaded_selects_first two_databases
           (Some (CStr "shop")) [Some (CStr "hr")]); reflexivity.
Defined.

Lemma select_without_databases (c : Picker.Client) (values : list string) :
  Picker.databases (Picker.state c) = [] ->
  Picker.run c (map Picker.Select values) = c.
Proof.
  intros H. induction values as [|value rest IH]; [reflexivity|].
  cbn [map Picker.run fold_left Picker.step]. rewrite H. cbn [existsb].
  exact IH.
Qed.

(** X28: When the list of databases does not arrive as an array (the fetch is
    rejected, or the server answers with an error object), nothing is
    selected or fetched, and no value can be chosen afterwards: the lists
    stay empty. *)
Theorem databases_failure_leaves_nothing_to_select :
  forall p values,
    (forall data, p <> Picker.Rows data) ->
    let c :=
      Picker.run Picker.mounted
        (Picker.DatabasesSettled p :: map Picker.Select values) in
    Picker.state c = Picker.initial_state /\ Picker.issued c = [].
Proof.
  intros p values Hp c. subst c.
  change (Picker.run Picker.mounted
            (Picker.DatabasesSettled p :: map Picker.Select values))
    with (Picker.run (Picker.step Picker.mounted (Picker.DatabasesSettled p))
            (map Picker.Select values)).
  destruct p as [| |data]; [| |now elim (Hp data)];
    (rewrite (select_without_databases _ values) by reflexivity);
    split; reflexivity.
Qed.

Lemma databases_failure_leaves_nothing_to_select_witness :
  let c :=
    Picker.run Picker.mounted
      (Picker.DatabasesSettled Picker.NotAnArray
       :: map Picker.Select ["shop"; "hr"]) in
  Picker.state c = Picker.initial_state /\ Picker.issued c = [].
Proof.
  apply (databases_failure_leaves_nothing_to_select Picker.NotAnArray
           ["shop"; "hr"]).
  discriminate.
Defined.

Lemma tableNames_not_ok (h : Host) (db : string) (w : World) :
  status (fst (tableNames_handler h db w)) <> 200 ->
  to_payload (fst (tableNames_handler h db w)) = Picker.NotAnArray.
Proof.
  unfold tableNames_handler. unfold_effects.
  repeat (split_match; cbn [fst snd status res_status_json res_failure res_json]);
    intros H; try reflexivity; now elim H.
Qed.

(** X29: When [/api/tableNames/:db] answers anything but 200 (404 for a database
    without tables, 500 for a failure), the component changes nothing: the
    tables listed before stay, and the loading flag is not lowered. *)
Theorem refused_table_list_keeps_loading :
  forall h db w c id,
    status (fst (tableNames_handler h db w)) <> 200 ->
    Picker.state
      (Picker.step c
         (Picker.TablesSettled id (to_payload (fst (tableNames_handler h db w)))))
    = Picker.state c.
Proof.
  intros h db w c id Hstatus.
  rewrite (tableNames_not_ok h db w Hstatus).
  cbn [Picker.step]. unfold Picker.tables_settled.
  destruct (existsb (Nat.eqb id) (Picker.in_flight c)); reflexivity.
Qed.

Lemma refused_table_list_keeps_loading_witness :
  Picker.state
    (Picker.step
       (Picker.step Picker.mounted (Picker.DatabasesSettled (Picker.Rows two_databases)))
       (Picker.TablesSettled 0
          (to_payload (fst (tableNames_handler empty_table_host "shop" initial_world)))))
  = Picker.state
      (Picker.step Picker.mounted (Picker.DatabasesSettled (Picker.Rows two_databases))).
Proof.
  apply (refused_table_list_keeps_loading empty_table_host "shop" initial_world
           (Picker.step Picker.mounted
              (Picker.DatabasesSettled (Picker.Rows two_databases)))
           0%nat).
  vm_compute. discriminate.
Defined.

Example empty_database_stays_loading :
  Picker.loading
    (Picker.state
       (Picker.step
          (Picker.step Picker.mounted
             (Picker.DatabasesSettled (Picker.Rows two_databases)))
          (Picker.TablesSettled 0
             (to_payload
                (fst (tableNames_handler empty_table_host "shop" initial_world))))))
  = true.
Proof. reflexivity. Qed.

(** X30: When a second database is chosen before the tables of the first have
    arrived, and the answer for the first arrives last, the tables of the
    first are listed under the second. *)
Theorem table_list_is_the_last_to_arrive :
  forall c a b tables_a tables_b,
    selectable c a = true ->
    selectable c b = true ->
    is_empty a = false ->
    is_empty b = false ->
    String.eqb a b = false ->
    Picker.same_name (Picker.selectedDb (Picker.state c)) (Some (CStr a)) = false ->
    let first_id := Picker.next_fetch_id c in
    let c' :=
      Picker.run c
        [ Picker.Select a; Picker.Select b;
          Picker.TablesSettled (S first_id) (Picker.Rows tables_b);
          Picker.TablesSettled first_id (Picker.Rows tables_a) ] in
    Picker.selectedDb (Picker.state c') = Some (CStr b)
    /\ Picker.tables (Picker.state c') = Picker.names_of tables_a
    /\ Picker.loading (Picker.state c') = false
    /\ Picker.issued c'
       = (S first_id, Some (CStr b)) :: (first_id, Some (CStr a))
         :: Picker.issued c.
Proof.
  intros c a b tables_a tables_b Ha Hb Hae Hbe Hab Hsel first_id c'.
  subst c' first_id. unfold selectable in Ha, Hb.
  cbn [Picker.run fold_left].
  assert (Hstep1 :
            Picker.step c (Picker.Select a)
            = {| Picker.state :=
                   {| Picker.databases := Picker.databases (Picker.state c);
                      Picker.selectedDb := Some (CStr a);
                      Picker.tables := Picker.tables (Picker.state c);
                      Picker.loading := true |};
                 Picker.databases_pending := Picker.databases_pending c;
                 Picker.issued :=
                   (Picker.next_fetch_id c, Some (CStr a)) :: Picker.issued c;
                 Picker.in_flight :=
                   Picker.next_fetch_id c :: Picker.in_flight c;
                 Picker.next_fetch_id := S (Picker.next_fetch_id c) |}).
  { cbn [Picker.step]. rewrite Ha. unfold Picker.setSelectedDb.
    rewrite Hsel. unfold Picker.tables_effect.
    cbn [Picker.state Picker.selectedDb Picker.truthy]. now rewrite Hae. }
  rewrite Hstep1. cbn [Picker.step Picker.state Picker.databases].
  rewrite Hb. unfold Picker.setSelectedDb.
  cbn [Picker.state Picker.selectedDb Picker.same_name Picker.cell_eqb].
  rewrite Hab. unfold Picker.tables_effect.
  cbn [Picker.state Picker.selectedDb Picker.truthy]. rewrite Hbe.
  cbn [negb]. unfold Picker.tables_settled.
  cbn [Picker.in_flight existsb]. rewrite Nat.eqb_refl. cbn [orb filter negb].
  rewrite Nat.eqb_refl. cbn [negb existsb Picker.in_flight].
  replace (Nat.eqb (Picker.next_fetch_id c) (S (Picker.next_fetch_id c)))
    with false by (symmetry; apply Nat.eqb_neq; lia).
  cbn [negb filter existsb]. rewrite Nat.eqb_refl. cbn [orb].
  repeat split.
Qed.

Lemma table_list_is_the_last_to_arrive_witness :
  let first_id := Picker.next_fetch_id shop_listed in
  let c' :=
    Picker.run shop_listed
      [ Picker.Select "hr"; Picker.Select "shop";
        Picker.TablesSettled (S first_id) (Picker.Rows shop_tables);
        Picker.TablesSettled first_id (Picker.Rows hr_tables) ] in
  Picker.selectedDb (Picker.state c') = Some (CStr "shop")
  /\ Picker.tables (Picker.state c') = Picker.names_of hr_tables
  /\ Picker.loading (Picker.state c') = false
  /\ Picker.issued c'
     = (S first_id, Some (CStr "shop")) :: (first_id, Some (CStr "hr"))
       :: Picker.issued shop_listed.
Proof.
  apply (table_list_is_the_last_to_arrive shop_listed "hr" "shop"
           hr_tables shop_tables); reflexivity.
Defined.
